(** * dbfs: the helper functions of sqlfs (source/helper.cpp)

    A shallow embedding of [CalculateDumpPath], [PrintMsg],
    [GetServerDetails], [CreateFile], [IsDbfsFile],
    [CreateCustomQueriesDir], [CreateDMVFiles], [CreateDbfsFiles] and
    [KillSelf], over an explicit model of the part of the operating system
    they talk to: a file system with extended attributes, [errno], the
    standard error stream and the delivery of SIGHUP to the own process.

    Conventions.
    - [std::string] and [const char*] are [string]; a string is taken to hold
      no NUL character, so that [c_str()] is the identity.
    - [int] is [Z]; the one narrowing conversion of the file
      ([int numEntries = filenames.size()]) is written out with [to_int].
    - A function with side effects is a function [World -> Outcome A]: it
      either returns a value and a new world, or the process stops inside it.
    - Every system call that can fail consults the fault oracle of the world,
      indexed by the number of system calls made so far, so that any pattern
      of failures (permission denied, no space, ...) is a possible world. *)

From stdpp Require Import base strings gmap list.
From Stdlib Require Import ZArith Lia Ascii String.

Local Open Scope Z_scope.
Local Open Scope string_scope.

(** ** C integers *)

(** Conversion of an unbounded value to a 32-bit [int] (two's complement). *)
Definition to_int (z : Z) : Z := (z + 2 ^ 31) mod 2 ^ 32 - 2 ^ 31.

(** ** Strings *)

(** The line feed character, written ['\n'] in the source. *)
Definition LF : ascii := "010"%char.
Definition nl : string := String LF EmptyString.

(** Modelled from the spec: [StringFormat] is declared in UtilsPrivate.h and
    defined outside helper.cpp; it is the [printf]-style formatter. Only the
    [%s] directive occurs in helper.cpp; a directive without an argument
    prints nothing. The same function renders the format of [PrintMsg]. *)
Fixpoint StringFormat (format : string) (args : list string) : string :=
  match format with
  | EmptyString => EmptyString
  | String "%" (String "s" rest) =>
      match args with
      | [] => StringFormat rest []
      | a :: args' => a +:+ StringFormat rest args'
      end
  | String c rest => String c (StringFormat rest args)
  end.

(** ** The file system *)

(** A node of the file system: a directory or a regular file, its content
    and its extended attributes (name to value). *)
Record inode := mkInode {
  i_dir : bool;
  i_data : string;
  i_xattr : gmap string string;
}.

Definition new_dir : inode := mkInode true EmptyString ∅.
Definition new_file : inode := mkInode false EmptyString ∅.
Definition truncate (n : inode) : inode := mkInode false EmptyString (i_xattr n).
Definition append_data (s : string) (n : inode) : inode :=
  mkInode (i_dir n) (i_data n +:+ s) (i_xattr n).
Definition set_attr (name value : string) (n : inode) : inode :=
  mkInode (i_dir n) (i_data n) (<[name := value]> (i_xattr n)).

(** The [errno] values the model produces by itself (Linux numbering). *)
Definition ENOENT : Z := 2.
Definition EEXIST : Z := 17.
Definition EISDIR : Z := 21.
Definition ENODATA : Z := 61.

(** ** Signals *)

(** What the process has arranged for SIGHUP: the default action (the
    process is terminated), ignoring it, or a handler that asks the serving
    loop to shut down and returns. *)
Inductive disposition := SIG_DFL | SIG_IGN | SIG_CATCH.

Global Instance disposition_eq_dec : EqDecision disposition.
Proof. solve_decision. Defined.

(** ** Observable events *)

Inductive fmode := ModeWPlus | ModeAppend.

Global Instance fmode_eq_dec : EqDecision fmode.
Proof. solve_decision. Defined.

Inductive event :=
  | EvMkdir (path : string) (mode : Z) (ret : Z)
  | EvFopen (path : string) (mode : fmode) (ok : bool)
  | EvSetxattr (path name : string) (ret : Z)
  | EvGetxattr (path name : string) (ret : Z)
  | EvKill
  | EvAbort.

(** ** The world *)

Record World := mkWorld {
  w_fs : gmap string inode;
  w_errno : Z;
  w_stderr : list string;
  w_trace : list event;
  w_clock : nat;
  w_fault : nat -> option Z;
  w_sighup : disposition;
  w_shutdown : bool;
}.

Definition set_fs (fs : gmap string inode) (w : World) : World :=
  mkWorld fs (w_errno w) (w_stderr w) (w_trace w) (w_clock w) (w_fault w)
          (w_sighup w) (w_shutdown w).
Definition set_errno (e : Z) (w : World) : World :=
  mkWorld (w_fs w) e (w_stderr w) (w_trace w) (w_clock w) (w_fault w)
          (w_sighup w) (w_shutdown w).
Definition put_stderr (s : string) (w : World) : World :=
  mkWorld (w_fs w) (w_errno w) (w_stderr w ++ [s]) (w_trace w) (w_clock w)
          (w_fault w) (w_sighup w) (w_shutdown w).
Definition record (e : event) (w : World) : World :=
  mkWorld (w_fs w) (w_errno w) (w_stderr w) (w_trace w ++ [e]) (w_clock w)
          (w_fault w) (w_sighup w) (w_shutdown w).
Definition tick (w : World) : World :=
  mkWorld (w_fs w) (w_errno w) (w_stderr w) (w_trace w) (S (w_clock w))
          (w_fault w) (w_sighup w) (w_shutdown w).
Definition request_shutdown (w : World) : World :=
  mkWorld (w_fs w) (w_errno w) (w_stderr w) (w_trace w) (w_clock w)
          (w_fault w) (w_sighup w) true.

(** The fault, if any, that the next system call runs into. *)
Definition fault_now (w : World) : option Z := w_fault w (w_clock w).

(** No system call made from [w] on runs into an injected fault. *)
Definition fault_free (w : World) : Prop :=
  ∀ n : nat, (w_clock w ≤ n)%nat → w_fault w n = None.

(** ** System calls *)

(** A failed call: [errno] is set and the event is recorded. *)
Definition sys_fail (e : Z) (ev : event) (w : World) : World :=
  tick (record ev (set_errno e w)).
Definition sys_done (ev : event) (fs : gmap string inode) (w : World) : World :=
  tick (record ev (set_fs fs w)).

(** [mkdir(path, mode)]: 0 on success, -1 on failure. *)
Definition sys_mkdir (path : string) (mode : Z) (w : World) : Z * World :=
  match fault_now w with
  | Some e => (-1, sys_fail e (EvMkdir path mode (-1)) w)
  | None =>
      match w_fs w !! path with
      | Some _ => (-1, sys_fail EEXIST (EvMkdir path mode (-1)) w)
      | None => (0, sys_done (EvMkdir path mode 0) (<[path := new_dir]> (w_fs w)) w)
      end
  end.

(** [fopen(path, mode)]: [true] stands for a stream, [false] for NULL. Mode
    w+ creates the file or truncates it to length zero; mode a creates it or
    leaves its content in place. Extended attributes survive truncation. *)
Definition sys_fopen (path : string) (mode : fmode) (w : World) : bool * World :=
  match fault_now w with
  | Some e => (false, sys_fail e (EvFopen path mode false) w)
  | None =>
      match w_fs w !! path with
      | Some n =>
          if i_dir n then (false, sys_fail EISDIR (EvFopen path mode false) w)
          else
            let n' := match mode with ModeWPlus => truncate n | ModeAppend => n end in
            (true, sys_done (EvFopen path mode true) (<[path := n']> (w_fs w)) w)
      | None => (true, sys_done (EvFopen path mode true) (<[path := new_file]> (w_fs w)) w)
      end
  end.

(** [fprintf] to a stream opened on [path] in append mode. *)
Definition sys_fputs (path : string) (s : string) (w : World) : World :=
  set_fs (alter (append_data s) path (w_fs w)) w.

(** [setxattr(path, name, value, size, flags)] with [flags = 0] (create or
    replace): the first [size] bytes of [value] become the value. *)
Definition sys_setxattr (path name value : string) (size : nat) (w : World)
  : Z * World :=
  match fault_now w with
  | Some e => (-1, sys_fail e (EvSetxattr path name (-1)) w)
  | None =>
      match w_fs w !! path with
      | None => (-1, sys_fail ENOENT (EvSetxattr path name (-1)) w)
      | Some n =>
          (0, sys_done (EvSetxattr path name 0)
                (<[path := set_attr name (substring 0 size value) n]> (w_fs w)) w)
      end
  end.

(** [getxattr(path, name, NULL, 0)]: the size of the value of the attribute,
    or -1 when the query fails or the attribute does not exist. *)
Definition sys_getxattr (path name : string) (w : World) : Z * World :=
  match fault_now w with
  | Some e => (-1, sys_fail e (EvGetxattr path name (-1)) w)
  | None =>
      match w_fs w !! path with
      | None => (-1, sys_fail ENOENT (EvGetxattr path name (-1)) w)
      | Some n =>
          match i_xattr n !! name with
          | None => (-1, sys_fail ENODATA (EvGetxattr path name (-1)) w)
          | Some v =>
              let r := Z.of_nat (String.length v) in
              (r, tick (record (EvGetxattr path name r) w))
          end
      end
  end.

(** ** Computations that may stop the process *)

Inductive halt := ByAbort | BySighup.

Inductive Outcome (A : Type) :=
  | Ret (a : A) (w : World)
  | Halt (h : halt) (w : World).
Arguments Ret {A} a w.
Arguments Halt {A} h w.

Definition M (A : Type) : Type := World -> Outcome A.

Definition ret {A} (a : A) : M A := fun w => Ret a w.
Definition bind {A B} (m : M A) (k : A -> M B) : M B :=
  fun w => match m w with
           | Ret a w' => k a w'
           | Halt h w' => Halt h w'
           end.
Definition lift {A} (f : World -> A * World) : M A :=
  fun w => let '(a, w') := f w in Ret a w'.
Definition get_errno : M Z := fun w => Ret (w_errno w) w.

Declare Scope m_scope.
Delimit Scope m_scope with M.
Notation "x <- c1 ;; c2" := (bind c1 (fun x => c2))
  (at level 100, c1 at next level, right associativity) : m_scope.
Notation "c1 ;; c2" := (bind c1 (fun _ => c2))
  (at level 100, right associativity) : m_scope.
Local Open Scope m_scope.

(** The world in which a computation ends, however it ends. *)
Definition final {A} (o : Outcome A) : World :=
  match o with Ret _ w => w | Halt _ w => w end.
Definition returned {A} (o : Outcome A) : bool :=
  match o with Ret _ _ => true | Halt _ _ => false end.

(** [for (int i = 0; i < n; i++) body(i)] *)
Fixpoint for_each (l : list nat) (body : nat -> M unit) : M unit :=
  match l with
  | [] => ret tt
  | i :: l' => body i ;; for_each l' body
  end.
Definition for_int (n : Z) (body : nat -> M unit) : M unit :=
  for_each (seq 0 (Z.to_nat n)) body.

(** [kill(getpid(), SIGHUP)]. A signal sent to the own process is delivered
    before [kill] returns: under the default action the process ends there;
    an ignored signal changes nothing; a handler runs (it notes that a
    shutdown was asked for) and [kill] returns 0. *)
Definition sys_kill_self_SIGHUP : M Z :=
  fun w =>
    let w' := record EvKill w in
    match w_sighup w with
    | SIG_DFL => Halt BySighup w'
    | SIG_IGN => Ret 0 w'
    | SIG_CATCH => Ret 0 (request_shutdown w')
    end.

(** ** Globals of the program (declared in UtilsPrivate.h) *)

Record ServerInfo := mkServerInfo {
  m_hostname : string;
  m_username : string;
  m_password : string;
  m_customQueriesPath : string;
}.

Record UserPaths := mkUserPaths {
  m_dumpPath : string;
  m_logfilePath : string;
}.

Record Globals := mkGlobals {
  g_UserPaths : UserPaths;
  g_InVerbose : bool;
  g_UseLogFile : bool;
  g_ServerInfoMap : gmap string ServerInfo;
  g_LocallyGeneratedFiles : string;
}.

(** The three [string&] parameters of [GetServerDetails]. *)
Record Details := mkDetails {
  hostname : string;
  username : string;
  password : string;
}.

(** The catalog query of [CreateDMVFiles]: schema 4 selects the DMVs. *)
Definition dmvQuery : string :=
  "SELECT name from sys.system_views where schema_id = 4".

(** ** The functions of helper.cpp *)

Section Helper.

(** The globals, constant after initialisation. *)
Variable G : Globals.
(** Whether the program was compiled with NDEBUG ([assert] is then empty). *)
Variable NDEBUG : bool.
(** [strerror] of the C library. *)
Variable strerror : Z -> string.
(** Macros of UtilsPrivate.h. *)
Variables LINUX_PATH_DELIM CUSTOM_QUERY_FOLDER_NAME : string.
Variables DEFAULT_PERMISSIONS TYPE_TSV : Z.
(** Functions of the program defined in other files: the tokeniser, the
    SQL client ([ExecuteQuery query hostname username password type]
    returns the error code and the response string) and the creation of
    the custom query output files. *)
Variable Split : string -> ascii -> list string.
Variable ExecuteQuery : string -> string -> string -> string -> Z -> M (Z * string).
Variable CreateCustomQueriesOutputFiles : string -> string -> M unit.

Definition CalculateDumpPath (path : string) : string :=
  m_dumpPath (g_UserPaths G) +:+ path.

(** [PrintMsg(format, ...)]: in verbose mode, write the formatted message
    to stderr, or to the log file (opened in append mode, closed after the
    write) when one is in use; a log file that cannot be opened loses the
    message. *)
Definition PrintMsg (format : string) (args : list string) : M unit :=
  fun w =>
    if g_InVerbose G then
      if g_UseLogFile G then
        let logfile := m_logfilePath (g_UserPaths G) in
        let '(outFile, w1) := sys_fopen logfile ModeAppend w in
        if outFile then Ret tt (sys_fputs logfile (StringFormat format args) w1)
        else Ret tt w1
      else Ret tt (put_stderr (StringFormat format args) w)
    else Ret tt w.

Definition KillSelf : M unit :=
  _ <- sys_kill_self_SIGHUP ;; ret tt.

Definition GetServerDetails (servername : string) (out : Details) : M Details :=
  match g_ServerInfoMap G !! servername with
  | Some search =>
      ret (mkDetails (m_hostname search) (m_username search) (m_password search))
  | None =>
      PrintMsg ("Unknown server %s" +:+ nl) [servername] ;;
      KillSelf ;;
      ret out
  end.

Definition CreateFile (path : string) : M unit :=
  fp <- lift (sys_fopen path ModeWPlus) ;;
  (if negb fp then
     e <- get_errno ;;
     PrintMsg ("Error creating file %s %s" +:+ nl) [path; strerror e] ;;
     KillSelf
   else ret tt) ;;
  status <- lift (sys_setxattr path (g_LocallyGeneratedFiles G) "1" 0) ;;
  if negb (status =? 0)%Z then
    e <- get_errno ;;
    PrintMsg ("Error setting extended attributes for file %s : %s" +:+ nl)
             [path; strerror e] ;;
    KillSelf
  else ret tt.

(** The size that [getxattr] returns fits an [int]: the value of an
    attribute is at most 64 KiB long. *)
Definition IsDbfsFile (path : string) : M bool :=
  let fpath := CalculateDumpPath path in
  length <- lift (sys_getxattr fpath (g_LocallyGeneratedFiles G)) ;;
  ret (if (0 <=? length)%Z then true else false).

Definition CreateCustomQueriesDir (dumpDir servername : string) : M unit :=
  let customQueryFolderPath :=
    dumpDir +:+ LINUX_PATH_DELIM +:+ CUSTOM_QUERY_FOLDER_NAME in
  error <- lift (sys_mkdir customQueryFolderPath DEFAULT_PERMISSIONS) ;;
  if (error =? 0)%Z then
    CreateCustomQueriesOutputFiles servername customQueryFolderPath
  else
    e <- get_errno ;;
    PrintMsg ("mkdir failed for %s- %s" +:+ nl) [customQueryFolderPath; strerror e].

(** [assert(cond)]: nothing under NDEBUG; otherwise a false condition
    prints a diagnostic on stderr and aborts the process. *)
Definition assert (expr : string) (cond : bool) : M unit :=
  fun w =>
    if NDEBUG || cond then Ret tt w
    else Halt ByAbort (record EvAbort
                         (put_stderr ("Assertion failed: " +:+ expr) w)).

(** One turn of the loop of [CreateDMVFiles]. *)
Definition CreateDMVFiles_body (dumpDir : string) (filenames : list string)
    (version : Z) (i : nat) : M unit :=
  if (i =? 0)%nat then ret tt
  else
    let filepath := StringFormat "%s/%s" [dumpDir; nth i filenames EmptyString] in
    CreateFile filepath ;;
    if (16 <=? version)%Z then
      let filepath := StringFormat "%s.json" [filepath] in
      CreateFile filepath
    else ret tt.

Definition CreateDMVFiles (dumpDir servername hostname username password : string)
    (version : Z) : M unit :=
  r <- ExecuteQuery dmvQuery hostname username password TYPE_TSV ;;
  let '(error, responseString) := r in
  if negb (error =? 0)%Z then
    PrintMsg ("Failed to query DMV list" +:+ nl) []
  else
    let filenames := Split responseString LF in
    let numEntries := to_int (Z.of_nat (List.length filenames)) in
    assert "numEntries > 1" (1 <? numEntries)%Z ;;
    for_int numEntries (CreateDMVFiles_body dumpDir filenames version).

Definition CreateDbfsFiles (servername hostname username password : string)
    (version : Z) : M unit :=
  let fpath := CalculateDumpPath servername in
  error <- lift (sys_mkdir fpath DEFAULT_PERMISSIONS) ;;
  if (error =? 0)%Z then
    CreateCustomQueriesDir fpath servername ;;
    CreateDMVFiles fpath servername hostname username password version
  else
    e <- get_errno ;;
    PrintMsg ("mkdir failed for %s- %s" +:+ nl) [fpath; strerror e] ;;
    PrintMsg ("There was an error creating the folders to hold the server DMV files. Exiting."
              +:+ nl) [] ;;
    KillSelf.

Definition GetServerInfo (servername : string) : option ServerInfo :=
  g_ServerInfoMap G !! servername.

Definition GetUserCustomQueryPath (servername : string) : string :=
  match GetServerInfo servername with
  | Some serverInfo => m_customQueriesPath serverInfo
  | None => EmptyString
  end.

End Helper.

(** ** Reading a trace *)

(** The paths on which a placeholder creation ([fopen] in mode w+) was
    attempted, in order, and those on which it succeeded. *)
Definition attempt_of (e : event) : list string :=
  match e with EvFopen p ModeWPlus _ => [p] | _ => [] end.
Definition created_of (e : event) : list string :=
  match e with EvFopen p ModeWPlus true => [p] | _ => [] end.
Definition attempts (t : list event) : list string := flat_map attempt_of t.
Definition creations (t : list event) : list string := flat_map created_of t.

(** How many times SIGHUP was sent to the own process. *)
Definition is_kill (e : event) : bool :=
  match e with EvKill => true | _ => false end.
Definition kills (t : list event) : nat := List.length (List.filter is_kill t).

(** The file at [path] carries the extended attribute [name]. *)
Definition has_xattr (fs : gmap string inode) (path name : string) : bool :=
  match fs !! path with
  | Some n => bool_decide (is_Some (i_xattr n !! name))
  | None => false
  end.

(** A placeholder: a regular file of length zero that carries [name]. *)
Definition is_placeholder (fs : gmap string inode) (path name : string) : bool :=
  match fs !! path with
  | Some n => negb (i_dir n) && bool_decide (i_data n = EmptyString)
              && bool_decide (i_xattr n !! name = Some EmptyString)
  | None => false
  end.

(** No node at [path] is a directory. *)
Definition not_dir (fs : gmap string inode) (path : string) : bool :=
  match fs !! path with Some n => negb (i_dir n) | None => true end.

(** ** The placeholders of a catalog *)

(** The files [CreateDMVFiles] is to create for the data rows [items], in
    the order of the loop. *)
Definition dmv_paths (dumpDir : string) (version : Z) (items : list string)
  : list string :=
  flat_map (λ name,
              let filepath := dumpDir +:+ "/" +:+ name in
              if (16 <=? version)%Z then [filepath; filepath +:+ ".json"]
              else [filepath]) items.

(** ** A sample installation *)

Module Sample.

Definition info : ServerInfo := mkServerInfo "10.0.0.5" "sa" "secret" "/etc/dbfs/q".

Definition globals (verbose uselog : bool) : Globals :=
  mkGlobals (mkUserPaths "/dump" "/var/log/dbfs.log") verbose uselog
            {[ "srv" := info ]} "user.dbfs.generated".

Definition G : Globals := globals true false.

Definition strerror (e : Z) : string :=
  if (e =? 13)%Z then "Permission denied"
  else if (e =? 2)%Z then "No such file or directory"
  else if (e =? 17)%Z then "File exists"
  else "Unknown error".

(** Modelled from the spec: [Split] is defined outside helper.cpp; the
    rows of a result are its lines. A final line without a line feed is a
    row; the empty string has no row. *)
Fixpoint split_from (cur s : string) (delim : ascii) : list string :=
  match s with
  | EmptyString => if bool_decide (cur = EmptyString) then [] else [cur]
  | String c rest =>
      if bool_decide (c = delim) then cur :: split_from EmptyString rest delim
      else split_from (cur +:+ String c EmptyString) rest delim
  end.
Definition Split : string -> ascii -> list string := split_from EmptyString.

(** A server that answers every query with [error] and [response]. *)
Definition answers (error : Z) (response : string)
  : string -> string -> string -> string -> Z -> M (Z * string) :=
  λ _ _ _ _ _, ret (error, response).

Definition catalog_ab : string := "ColumnName" +:+ nl +:+ "a" +:+ nl +:+ "b" +:+ nl.
Definition catalog_header_only : string := "ColumnName" +:+ nl.

(** One custom query, [top.sql], configured for every server. *)
Definition custom (servername folder : string) : M unit :=
  CreateFile G strerror (folder +:+ "/top.sql").

(** A world with an empty dump directory. *)
Definition world (fault : nat -> option Z) (sighup : disposition) : World :=
  mkWorld {[ "/dump" := new_dir ]} 0 [] [] 0 fault sighup false.

(** The same after the directory of the server srv was made. *)
Definition server_world (fault : nat -> option Z) (sighup : disposition) : World :=
  mkWorld {[ "/dump" := new_dir; "/dump/srv" := new_dir ]} 0 [] [] 0
          fault sighup false.

Definition no_fault : nat -> option Z := λ _, None.
(** The system call number [k] fails with EACCES. *)
Definition denied_at (k : nat) : nat -> option Z :=
  λ n, if (n =? k)%nat then Some 13%Z else None.

Definition CreateDMVFiles_on (ndebug : bool) (response : string) (version : Z)
  : M unit :=
  CreateDMVFiles G ndebug strerror 0 Split (answers 0 response)
                 "/dump/srv" "srv" "10.0.0.5" "sa" "secret" version.

Definition CreateDbfsFiles_on (version : Z) : M unit :=
  CreateDbfsFiles G false strerror "/" "customQueries" 493 0 Split
                  (answers 0 catalog_ab) custom
                  "/srv" "10.0.0.5" "sa" "secret" version.

End Sample.

(** The world after a placeholder was created at [path] and tagged with the
    attribute [name]: both system calls succeeded. *)
Definition placeholder_of (name : string) (old : option inode) : inode :=
  set_attr name EmptyString
           (match old with Some n => truncate n | None => new_file end).

Definition touch (name path : string) (w : World) : World :=
  mkWorld (<[path := placeholder_of name (w_fs w !! path)]> (w_fs w))
          (w_errno w) (w_stderr w)
          (w_trace w ++ [EvFopen path ModeWPlus true; EvSetxattr path name 0])
          (S (S (w_clock w))) (w_fault w) (w_sighup w) (w_shutdown w).

(** [CreateFile] in two halves: the creation of the file and its tagging. *)
Definition CreateFile_open (G : Globals) (strerror : Z -> string) (path : string)
  : M unit :=
  fp <- lift (sys_fopen path ModeWPlus) ;;
  if negb fp then
    e <- get_errno ;;
    PrintMsg G ("Error creating file %s %s" +:+ nl) [path; strerror e] ;;
    KillSelf
  else ret tt.

Definition CreateFile_tag (G : Globals) (strerror : Z -> string) (path : string)
  : M unit :=
  status <- lift (sys_setxattr path (g_LocallyGeneratedFiles G) "1" 0) ;;
  if negb (status =? 0)%Z then
    e <- get_errno ;;
    PrintMsg G ("Error setting extended attributes for file %s : %s" +:+ nl)
             [path; strerror e] ;;
    KillSelf
  else ret tt.

(** The loop of [CreateDMVFiles] read as a recursion over the data rows. *)
Fixpoint create_items (G : Globals) (strerror : Z -> string) (dumpDir : string)
    (version : Z) (items : list string) : M unit :=
  match items with
  | [] => ret tt
  | name :: rest =>
      (let filepath := dumpDir +:+ "/" +:+ name in
       CreateFile G strerror filepath ;;
       if (16 <=? version)%Z then CreateFile G strerror (filepath +:+ ".json")
       else ret tt) ;;
      create_items G strerror dumpDir version rest
  end.

Definition touch_all (name : string) (paths : list string) (w : World) : World :=
  foldl (λ w p, touch name p w) w paths.

(** [w'] differs from [w] by the events [evs] and by nothing that decides
    how the rest of the run is judged: same signal disposition, same fault
    oracle, a clock that only moves forward. *)
Definition extends (evs : list event) (w w' : World) : Prop :=
  w_trace w' = (w_trace w ++ evs)%list ∧ w_sighup w' = w_sighup w ∧
  w_fault w' = w_fault w ∧ (w_clock w ≤ w_clock w')%nat.

(** ** The remaining function of helper.cpp *)

Section HelperRest.
Variable G : Globals.
Variable strerror : Z -> string.

End HelperRest.

(** ** More ways to read a world *)

(** What the file at [path] holds; nothing when there is no such file. *)
Definition content (fs : gmap string inode) (path : string) : string :=
  match fs !! path with Some n => i_data n | None => EmptyString end.

(** [w'] has the file system of [w] at every path outside [paths]. *)
Definition agree_outside (paths : list string) (w w' : World) : Prop :=
  ∀ q, q ∉ paths -> w_fs w' !! q = w_fs w !! q.

(** However the computation [m] ends, the world it ends in is related by
    [R] to the one it started from. *)
Definition keeps {A} (R : World -> World -> Prop) (m : M A) : Prop :=
  ∀ w, R w (final (m w)).

(** Every path that the loop of [CreateDMVFiles] may open for the rows
    [filenames]: a file per row, its .json sibling, and the log file. *)
Definition dmv_targets (G : Globals) (dumpDir : string) (filenames : list string)
  : list string :=
  m_logfilePath (g_UserPaths G)
  :: flat_map (λ name, [dumpDir +:+ "/" +:+ name;
                        (dumpDir +:+ "/" +:+ name) +:+ ".json"]) filenames.

(** The sample installation writing to its log file. *)
Module SampleLog.
Definition G : Globals := Sample.globals true true.
Definition logfile : string := "/var/log/dbfs.log".
(** A world whose log file holds one earlier line. *)
Definition world (fault : nat -> option Z) (sighup : disposition) : World :=
  mkWorld {[ "/dump" := new_dir;
             logfile := mkInode false "started" ∅ ]} 5 [] [] 0 fault sighup false.
End SampleLog.

(** A format that [StringFormat] renders as [vfprintf] does: its only
    directive is [%s], and there is an argument for each occurrence. *)
Fixpoint format_of_strings (format : string) (args : list string) : bool :=
  match format with
  | EmptyString => true
  | String "%" (String "s" rest) =>
      match args with
      | [] => false
      | _ :: args' => format_of_strings rest args'
      end
  | String "%" _ => false
  | String _ rest => format_of_strings rest args
  end.

(** * Properties *)

(** ** Strings and traces *)

Lemma append_empty_r (s : string) : s +:+ EmptyString = s.
Proof.
  induction s as [|c s IH]; [reflexivity |].
  change (String c (s +:+ EmptyString) = String c s). now rewrite IH.
Qed.

Lemma append_inj_l (p s t : string) : p +:+ s = p +:+ t -> s = t.
Proof.
  induction p as [|c p IH]; intros H; [exact H |].
  change (String c (p +:+ s) = String c (p +:+ t)) in H.
  injection H as H. auto.
Qed.

Lemma StringFormat_path (dumpDir name : string) :
  StringFormat "%s/%s" [dumpDir; name] = dumpDir +:+ "/" +:+ name.
Proof.
  change (dumpDir +:+ String "/" (name +:+ EmptyString) = dumpDir +:+ String "/" name).
  now rewrite append_empty_r.
Qed.

Lemma StringFormat_json (filepath : string) :
  StringFormat "%s.json" [filepath] = filepath +:+ ".json".
Proof. reflexivity. Qed.

Lemma attempts_app (t u : list event) : attempts (t ++ u) = (attempts t ++ attempts u)%list.
Proof. unfold attempts. apply flat_map_app. Qed.

Lemma creations_app (t u : list event) :
  creations (t ++ u) = (creations t ++ creations u)%list.
Proof. unfold creations. apply flat_map_app. Qed.

Lemma kills_app (t u : list event) : kills (t ++ u) = (kills t + kills u)%nat.
Proof. unfold kills. now rewrite List.filter_app, length_app. Qed.

(** ** The monad *)

Lemma for_each_halt (i : nat) (l : list nat) (body : nat -> M unit) h w w' :
  body i w = Halt h w' -> for_each (i :: l) body w = Halt h w'.
Proof. intros H. simpl. unfold bind. now rewrite H. Qed.

Lemma for_each_step (i : nat) (l : list nat) (body : nat -> M unit) w w' :
  body i w = Ret tt w' -> for_each (i :: l) body w = for_each l body w'.
Proof. intros H. simpl. unfold bind. now rewrite H. Qed.

Lemma final_bind_ret {A B} (m : M A) (b : B) (w : World) :
  final ((m ;; ret b) w) = final (m w).
Proof. unfold bind, ret. now destruct (m w). Qed.

(** ** PrintMsg *)

Section PrintMsgFacts.
Variable G : Globals.
Variables (format : string) (args : list string) (w : World).

Local Abbreviation w' := (final (PrintMsg G format args w)).

Lemma PrintMsg_returns : PrintMsg G format args w = Ret tt w'.
Proof.
  unfold PrintMsg.
  destruct (g_InVerbose G); [|reflexivity].
  destruct (g_UseLogFile G); [|reflexivity].
  destruct (sys_fopen _ _ _) as [[] ?]; reflexivity.
Qed.

Lemma PrintMsg_stderr :
  g_InVerbose G = true -> g_UseLogFile G = false ->
  w' = put_stderr (StringFormat format args) w.
Proof. unfold PrintMsg. intros -> ->. reflexivity. Qed.

Lemma PrintMsg_quiet : g_InVerbose G = false -> w' = w.
Proof. unfold PrintMsg. intros ->. reflexivity. Qed.

Lemma PrintMsg_frame :
  w_sighup w' = w_sighup w ∧ w_fault w' = w_fault w ∧
  attempts (w_trace w') = attempts (w_trace w) ∧
  kills (w_trace w') = kills (w_trace w) ∧
  (∀ p, p ≠ m_logfilePath (g_UserPaths G) -> w_fs w' !! p = w_fs w !! p).
Proof.
  unfold PrintMsg.
  destruct (g_InVerbose G); [|done].
  destruct (g_UseLogFile G); [|done].
  unfold sys_fopen.
  destruct (fault_now w); simpl.
  { rewrite attempts_app, kills_app. simpl. rewrite app_nil_r.
    repeat split; auto with lia. }
  destruct (w_fs w !! _) as [n|] eqn:E; [destruct (i_dir n)|]; simpl;
    rewrite attempts_app, kills_app; simpl; rewrite app_nil_r;
    repeat split; auto with lia; intros p Hp;
    rewrite ?lookup_alter_ne, ?lookup_insert_ne by congruence; reflexivity.
Qed.

Lemma PrintMsg_bind {B} (k : unit -> M B) :
  bind (PrintMsg G format args) k w = k tt w'.
Proof.
  pose proof PrintMsg_returns as H. unfold bind.
  destruct (PrintMsg G format args w) as [[] w1|h w1]; simpl in *;
    [reflexivity | discriminate].
Qed.
End PrintMsgFacts.

(** ** System calls: what they leave alone *)

Lemma extends_trans evs1 evs2 w1 w2 w3 :
  extends evs1 w1 w2 -> extends evs2 w2 w3 -> extends (evs1 ++ evs2) w1 w3.
Proof.
  intros (Ht & Hs & Hf & Hc) (Ht' & Hs' & Hf' & Hc').
  repeat split; [| congruence | congruence | lia].
  rewrite Ht', Ht. now rewrite app_assoc.
Qed.

Lemma sys_fopen_extends path mode w :
  extends [EvFopen path mode (fst (sys_fopen path mode w))] w
          (snd (sys_fopen path mode w)).
Proof.
  unfold sys_fopen. destruct (fault_now w); simpl.
  { repeat split; simpl; auto with lia. }
  destruct (w_fs w !! path) as [n|]; [destruct (i_dir n)|]; simpl;
    repeat split; simpl; auto with lia.
Qed.

Lemma sys_setxattr_extends path name value size w :
  extends [EvSetxattr path name (fst (sys_setxattr path name value size w))] w
          (snd (sys_setxattr path name value size w)).
Proof.
  unfold sys_setxattr. destruct (fault_now w); simpl.
  { repeat split; simpl; auto with lia. }
  destruct (w_fs w !! path) as [n|]; simpl; repeat split; simpl; auto with lia.
Qed.

Lemma sys_mkdir_extends path mode w :
  extends [EvMkdir path mode (fst (sys_mkdir path mode w))] w
          (snd (sys_mkdir path mode w)).
Proof.
  unfold sys_mkdir. destruct (fault_now w); simpl.
  { repeat split; simpl; auto with lia. }
  destruct (w_fs w !! path) as [n|]; simpl; repeat split; simpl; auto with lia.
Qed.

(** ** KillSelf *)

Lemma KillSelf_default w :
  w_sighup w = SIG_DFL -> KillSelf w = Halt BySighup (record EvKill w).
Proof. unfold KillSelf, bind, sys_kill_self_SIGHUP. now intros ->. Qed.

Lemma KillSelf_otherwise w :
  w_sighup w ≠ SIG_DFL ->
  ∃ w', KillSelf w = Ret tt w' ∧ extends [EvKill] w w' ∧ w_fs w' = w_fs w ∧
        w_stderr w' = w_stderr w.
Proof.
  unfold KillSelf, bind, sys_kill_self_SIGHUP. intros H.
  destruct (w_sighup w) eqn:E; [congruence | |];
    eexists; (split; [reflexivity |]); repeat split; simpl; auto with lia.
Qed.

Lemma KillSelf_trace w : w_trace (final (KillSelf w)) = (w_trace w ++ [EvKill])%list.
Proof.
  unfold KillSelf, bind, sys_kill_self_SIGHUP. now destruct (w_sighup w).
Qed.

(** ** CalculateDumpPath *)

(** C6. For every mount-relative path P, [CalculateDumpPath] returns the
    dump root followed by P, character for character: it is a function of
    the globals and of P alone (it does not read or change the world, and
    has no failing case), and the length of the result is the sum of the
    two lengths, so nothing of P is dropped or rewritten. *)
Theorem CalculateDumpPath_is_concatenation (G : Globals) (P : string) :
  CalculateDumpPath G P = m_dumpPath (g_UserPaths G) +:+ P ∧
  String.length (CalculateDumpPath G P)
  = (String.length (m_dumpPath (g_UserPaths G)) + String.length P)%nat.
Proof.
  unfold CalculateDumpPath. split; [reflexivity |].
  induction (m_dumpPath (g_UserPaths G)) as [|c s IH]; [reflexivity |].
  change (S (String.length (s +:+ P)) = S (String.length s + String.length P)).
  now rewrite IH.
Qed.

(** Dot segments and repeated separators are kept as they are. *)
Example CalculateDumpPath_no_normalization :
  CalculateDumpPath Sample.G "/srv/../other//x" = "/dump/srv/../other//x".
Proof. reflexivity. Qed.

Lemma CalculateDumpPath_injective (G : Globals) (P Q : string) :
  CalculateDumpPath G P = CalculateDumpPath G Q -> P = Q.
Proof. unfold CalculateDumpPath. apply append_inj_l. Qed.

(** ** IsDbfsFile *)

Lemma has_xattr_true fs path name :
  has_xattr fs path name = true ↔
  ∃ n v, fs !! path = Some n ∧ i_xattr n !! name = Some v.
Proof.
  unfold has_xattr. destruct (fs !! path) as [n|]; split.
  - intros H%bool_decide_eq_true. destruct H as [v Hv]. eauto.
  - intros (n' & v & [= <-] & Hv). apply bool_decide_eq_true. eauto.
  - discriminate.
  - intros (n' & v & [=] & _).
Qed.

(** The value stored under the attribute plays no part. *)
Lemma has_xattr_any_value fs path name value n :
  fs !! path = Some n ->
  has_xattr (<[path := set_attr name value n]> fs) path name = true.
Proof.
  intros _. apply has_xattr_true. exists (set_attr name value n), value.
  split; [apply lookup_insert_eq | apply lookup_insert_eq].
Qed.

(** C9. [IsDbfsFile] always returns, leaves the file system as it was, and
    its answer is: false when the attribute query fails, and otherwise
    whether the file at the dump path carries the provenance attribute
    (whatever its value). A missing file and a missing attribute both give
    false. *)
Theorem IsDbfsFile_iff_attribute (G : Globals) (path : string) (w : World) :
  ∃ w',
    IsDbfsFile G path w
    = Ret (match fault_now w with
           | Some _ => false
           | None => has_xattr (w_fs w) (CalculateDumpPath G path)
                               (g_LocallyGeneratedFiles G)
           end) w'
    ∧ w_fs w' = w_fs w.
Proof.
  unfold IsDbfsFile, bind, lift, ret, sys_getxattr, has_xattr.
  destruct (fault_now w) as [e|]; [eexists; split; reflexivity |].
  destruct (w_fs w !! CalculateDumpPath G path) as [n|];
    [| eexists; split; reflexivity].
  destruct (i_xattr n !! g_LocallyGeneratedFiles G) as [v|] eqn:E.
  - rewrite bool_decide_eq_true_2 by eauto.
    destruct (0 <=? Z.of_nat (String.length v))%Z eqn:L;
      [| apply Z.leb_gt in L; lia].
    eexists. split; reflexivity.
  - rewrite bool_decide_eq_false_2 by (intros [v Hv]; congruence).
    eexists. split; reflexivity.
Qed.

(** ** KillSelf and its callers *)

(** C4 (as amended). [KillSelf] sends SIGHUP to the own process, once. It
    does not return exactly when SIGHUP has its default action; when the
    signal is caught or ignored it returns to its caller. *)
Theorem KillSelf_diverges_iff_default (w : World) :
  (returned (KillSelf w) = false ↔ w_sighup w = SIG_DFL) ∧
  w_trace (final (KillSelf w)) = (w_trace w ++ [EvKill])%list.
Proof.
  split; [| apply KillSelf_trace].
  unfold KillSelf, bind, sys_kill_self_SIGHUP.
  destruct (w_sighup w); simpl; split; congruence.
Qed.

(** ** GetServerDetails *)

(** C8. For a server name that is not in the registry, [GetServerDetails]
    hands the message "Unknown server <name>" to [PrintMsg] (in verbose mode
    without a log file it is the next line on stderr) and then calls
    [KillSelf]: SIGHUP is sent once, and under the default action the
    process ends there. Nothing but the details comes back from the
    function, so no error value reaches the caller. *)
Theorem GetServerDetails_unknown_server
    (G : Globals) (servername : string) (out : Details) (w : World) :
  g_ServerInfoMap G !! servername = None ->
  let w1 := final (PrintMsg G ("Unknown server %s" +:+ nl) [servername] w) in
  let o := GetServerDetails G servername out w in
  (g_InVerbose G = true -> g_UseLogFile G = false ->
   w_stderr (final o) = (w_stderr w ++ ["Unknown server " +:+ servername +:+ nl])%list) ∧
  w_trace (final o) = (w_trace w1 ++ [EvKill])%list ∧
  kills (w_trace (final o)) = S (kills (w_trace w)) ∧
  (w_sighup w = SIG_DFL -> o = Halt BySighup (record EvKill w1)).
Proof.
  intros Hnone w1 o.
  assert (Ho : o = (KillSelf ;; ret out) w1).
  { subst o w1. unfold GetServerDetails. rewrite Hnone.
    now rewrite PrintMsg_bind. }
  destruct (PrintMsg_frame G ("Unknown server %s" +:+ nl) [servername] w)
    as (Hs & _ & _ & Hk & _). fold w1 in Hs, Hk.
  assert (Ht : w_trace (final o) = (w_trace w1 ++ [EvKill])%list).
  { rewrite Ho, final_bind_ret. apply KillSelf_trace. }
  repeat split.
  - intros Hv Hl. rewrite Ho.
    assert (E : w_stderr (final ((KillSelf ;; ret out) w1)) = w_stderr w1).
    { rewrite final_bind_ret.
      unfold KillSelf, sys_kill_self_SIGHUP, bind, ret. now destruct (w_sighup w1). }
    rewrite E. subst w1. rewrite PrintMsg_stderr by assumption. reflexivity.
  - exact Ht.
  - rewrite Ht, kills_app, Hk. change (kills [EvKill]) with 1%nat. lia.
  - intros Hd. rewrite Ho. unfold bind. rewrite KillSelf_default; [reflexivity |].
    congruence.
Qed.

(** C10. For a server name that is not in the registry, [GetServerDetails]
    writes to none of its three output parameters: whenever it returns, the
    details are the ones the caller passed in, and it does return whenever
    SIGHUP is caught or ignored. *)
Theorem GetServerDetails_unknown_keeps_outputs
    (G : Globals) (servername : string) (out : Details) (w : World) :
  g_ServerInfoMap G !! servername = None ->
  (∀ out' w', GetServerDetails G servername out w = Ret out' w' -> out' = out) ∧
  (w_sighup w ≠ SIG_DFL -> ∃ w', GetServerDetails G servername out w = Ret out w').
Proof.
  intros Hnone. unfold GetServerDetails. rewrite Hnone.
  rewrite PrintMsg_bind.
  set (w1 := final (PrintMsg G _ _ w)).
  destruct (PrintMsg_frame G ("Unknown server %s" +:+ nl) [servername] w)
    as (Hs & _). fold w1 in Hs.
  split.
  - intros out' w'. unfold KillSelf, sys_kill_self_SIGHUP, bind, ret.
    destruct (w_sighup w1); [discriminate | |]; now intros [= <- _].
  - intros Hd. destruct (KillSelf_otherwise w1) as (w' & Hk & _); [congruence |].
    exists w'. unfold bind. now rewrite Hk.
Qed.

(** ** CreateFile *)

Lemma bind_ext {A B} (m : M A) (k1 k2 : A -> M B) (w : World) :
  (∀ a w', k1 a w' = k2 a w') -> bind m k1 w = bind m k2 w.
Proof. intros H. unfold bind. destruct (m w); auto. Qed.

Lemma bind_assoc {A B C} (m : M A) (k : A -> M B) (k' : B -> M C) (w : World) :
  bind (bind m k) k' w = bind m (λ a, bind (k a) k') w.
Proof. unfold bind. now destruct (m w). Qed.

Lemma CreateFile_halves G strerror path w :
  CreateFile G strerror path w
  = (CreateFile_open G strerror path ;; CreateFile_tag G strerror path) w.
Proof.
  unfold CreateFile_open. rewrite bind_assoc. reflexivity.
Qed.

Lemma fault_free_now w : fault_free w -> fault_now w = None.
Proof. intros H. apply H. lia. Qed.

Lemma fault_free_later w w' :
  fault_free w -> w_fault w' = w_fault w -> (w_clock w ≤ w_clock w')%nat ->
  fault_free w'.
Proof. intros H Hf Hc n Hn. rewrite Hf. apply H. lia. Qed.

Lemma not_dir_lookup fs path :
  not_dir fs path = true ->
  fs !! path = None ∨ ∃ n, fs !! path = Some n ∧ i_dir n = false.
Proof.
  unfold not_dir. destruct (fs !! path) as [n|]; [| now left].
  intros H. right. exists n. split; [reflexivity |]. now destruct (i_dir n).
Qed.

(** When both system calls succeed, [CreateFile] leaves a tagged placeholder
    and reports nothing. *)
Lemma CreateFile_ok G strerror path w :
  fault_free w -> not_dir (w_fs w) path = true ->
  CreateFile G strerror path w
  = Ret tt (touch (g_LocallyGeneratedFiles G) path w).
Proof.
  intros Hff Hnd.
  assert (H0 : w_fault w (w_clock w) = None) by (apply Hff; lia).
  assert (H1 : w_fault w (S (w_clock w)) = None) by (apply Hff; lia).
  unfold CreateFile, bind, lift, sys_fopen, fault_now. rewrite H0.
  destruct (not_dir_lookup _ _ Hnd) as [E | (n & E & Hd)]; rewrite E; [| rewrite Hd];
    simpl; unfold sys_setxattr, fault_now; simpl; rewrite H1, lookup_insert_eq;
    simpl; unfold ret, touch, sys_done, tick, record, set_fs; simpl;
    rewrite E, insert_insert_eq, <- app_assoc; reflexivity.
Qed.

(** ** What [touch] does to a world *)

Section TouchFacts.
Variables (name : string).

Lemma touch_fault_free path w : fault_free w -> fault_free (touch name path w).
Proof. intros H. apply (fault_free_later w); [exact H | reflexivity | simpl; lia]. Qed.

Lemma touch_not_dir path q w :
  not_dir (w_fs w) q = true -> not_dir (w_fs (touch name path w)) q = true.
Proof.
  unfold not_dir, touch; simpl. intros H.
  destruct (decide (path = q)) as [->|Hne].
  - rewrite lookup_insert_eq. now destruct (w_fs w !! q).
  - now rewrite lookup_insert_ne.
Qed.

Lemma touch_placeholder path w :
  is_placeholder (w_fs (touch name path w)) path name = true.
Proof.
  unfold is_placeholder, touch; simpl. rewrite lookup_insert_eq.
  destruct (w_fs w !! path); simpl;
    rewrite bool_decide_eq_true_2 by apply lookup_insert_eq; reflexivity.
Qed.

Lemma touch_keeps_placeholder path q w :
  is_placeholder (w_fs w) q name = true ->
  is_placeholder (w_fs (touch name path w)) q name = true.
Proof.
  intros H. destruct (decide (path = q)) as [->|Hne]; [apply touch_placeholder |].
  unfold is_placeholder, touch in *; simpl. now rewrite lookup_insert_ne.
Qed.

Lemma touch_all_app ps qs w :
  touch_all name (ps ++ qs) w = touch_all name qs (touch_all name ps w).
Proof. unfold touch_all. apply foldl_app. Qed.

Lemma touch_all_fault_free ps w :
  fault_free w -> fault_free (touch_all name ps w).
Proof.
  revert w. induction ps as [|p ps IH]; intros w H; [exact H |].
  apply IH, touch_fault_free, H.
Qed.

Lemma touch_all_not_dir ps q w :
  not_dir (w_fs w) q = true -> not_dir (w_fs (touch_all name ps w)) q = true.
Proof.
  revert w. induction ps as [|p ps IH]; intros w H; [exact H |].
  apply IH, touch_not_dir, H.
Qed.

Lemma touch_all_keeps_placeholder ps q w :
  is_placeholder (w_fs w) q name = true ->
  is_placeholder (w_fs (touch_all name ps w)) q name = true.
Proof.
  revert w. induction ps as [|p ps IH]; intros w H; [exact H |].
  apply IH, touch_keeps_placeholder, H.
Qed.

(** Every path of the list ends up as a tagged placeholder. *)
Lemma touch_all_placeholders ps q w :
  q ∈ ps -> is_placeholder (w_fs (touch_all name ps w)) q name = true.
Proof.
  revert w. induction ps as [|p ps IH]; intros w Hin.
  - inversion Hin.
  - apply elem_of_cons in Hin as [->|Hin]; [| now apply IH].
    simpl. apply touch_all_keeps_placeholder, touch_placeholder.
Qed.

(** Exactly the paths of the list are added to the file system. *)
Lemma touch_all_dom ps w :
  dom (w_fs (touch_all name ps w)) = dom (w_fs w) ∪ list_to_set ps.
Proof.
  revert w. induction ps as [|p ps IH]; intros w; simpl.
  - set_solver.
  - rewrite IH. unfold touch at 1; simpl. rewrite dom_insert_L. set_solver.
Qed.

Lemma touch_all_other ps q w :
  q ∉ ps -> w_fs (touch_all name ps w) !! q = w_fs w !! q.
Proof.
  revert w. induction ps as [|p ps IH]; intros w Hq; [reflexivity |].
  apply not_elem_of_cons in Hq as [Hne Hq]. simpl. rewrite IH by exact Hq.
  unfold touch; simpl. now rewrite lookup_insert_ne.
Qed.

(** The creations are attempted in the order of the list, all succeed,
    nothing is printed, no signal is sent and [errno] is not touched. *)
Lemma touch_all_trace ps w :
  attempts (w_trace (touch_all name ps w)) = (attempts (w_trace w) ++ ps)%list ∧
  creations (w_trace (touch_all name ps w)) = (creations (w_trace w) ++ ps)%list ∧
  kills (w_trace (touch_all name ps w)) = kills (w_trace w) ∧
  w_stderr (touch_all name ps w) = w_stderr w ∧
  w_errno (touch_all name ps w) = w_errno w ∧
  w_sighup (touch_all name ps w) = w_sighup w.
Proof.
  revert w. induction ps as [|p ps IH]; intros w.
  - simpl. now rewrite !app_nil_r.
  - simpl. destruct (IH (touch name p w)) as (Ha & Hc & Hk & He & Hn & Hs).
    rewrite Ha, Hc, Hk, He, Hn, Hs. unfold touch; simpl.
    rewrite attempts_app, creations_app, kills_app. simpl.
    rewrite <- !app_assoc. repeat split; auto with lia.
Qed.
End TouchFacts.

(** ** The loop of CreateDMVFiles *)

Lemma to_int_small (z : Z) : (0 <= z < 2 ^ 31)%Z -> to_int z = z.
Proof. intros H. unfold to_int. rewrite Z.mod_small by lia. lia. Qed.

Section LoopFacts.
Variables (G : Globals) (strerror : Z -> string) (dumpDir : string) (version : Z).

Local Abbreviation body filenames :=
  (CreateDMVFiles_body G strerror dumpDir filenames version).

(** From index [length done] on, the loop visits the remaining rows. *)
Lemma loop_from (items done : list string) (w : World) :
  done ≠ [] ->
  for_each (seq (List.length done) (List.length items)) (body (done ++ items)) w
  = create_items G strerror dumpDir version items w.
Proof.
  revert done w. induction items as [|name rest IH]; intros done w Hne;
    [reflexivity |].
  simpl. unfold CreateDMVFiles_body at 1.
  destruct (List.length done) as [|k] eqn:Hlen.
  { destruct done; [congruence | discriminate]. }
  change (S k =? 0)%nat with false. cbv iota.
  rewrite <- Hlen, nth_middle, StringFormat_path, StringFormat_json.
  apply bind_ext. intros _ w'.
  replace (done ++ name :: rest)%list with ((done ++ [name]) ++ rest)%list
    by now rewrite <- app_assoc.
  replace (S (List.length done)) with (List.length (done ++ [name]))
    by (rewrite length_app; simpl; lia).
  apply IH. now destruct done.
Qed.

(** The whole loop, for a result with a header row. *)
Lemma loop_whole (header : string) (items : list string) (w : World) :
  (Z.of_nat (List.length (header :: items)) < 2 ^ 31)%Z ->
  for_int (to_int (Z.of_nat (List.length (header :: items))))
          (body (header :: items)) w
  = create_items G strerror dumpDir version items w.
Proof.
  intros Hlen. rewrite to_int_small by lia. unfold for_int.
  rewrite Nat2Z.id. simpl. unfold bind at 1, CreateDMVFiles_body at 1.
  simpl. apply (loop_from items [header]). discriminate.
Qed.

(** Rows already visited and rows still to visit. *)
Lemma create_items_app (done items : list string) (w : World) :
  create_items G strerror dumpDir version (done ++ items) w
  = (create_items G strerror dumpDir version done ;;
     create_items G strerror dumpDir version items) w.
Proof.
  revert w. induction done as [|name done IH]; intros w; [reflexivity |].
  simpl. etransitivity; [| symmetry; apply bind_assoc].
  apply bind_ext. intros _ w'. apply IH.
Qed.

(** All creations succeed: the loop leaves one placeholder per path. *)
Lemma create_items_ok (items : list string) (w : World) :
  fault_free w ->
  (∀ p, p ∈ dmv_paths dumpDir version items -> not_dir (w_fs w) p = true) ->
  create_items G strerror dumpDir version items w
  = Ret tt (touch_all (g_LocallyGeneratedFiles G)
                      (dmv_paths dumpDir version items) w).
Proof.
  revert w. induction items as [|name rest IH]; intros w Hff Hnd; [reflexivity |].
  simpl in *. unfold bind at 1 2.
  rewrite CreateFile_ok; [| exact Hff | apply Hnd; destruct (16 <=? version)%Z; set_solver].
  destruct (16 <=? version)%Z.
  - rewrite CreateFile_ok;
      [| now apply touch_fault_free | apply touch_not_dir, Hnd; set_solver].
    apply IH.
    + now do 2 apply touch_fault_free.
    + intros p Hp. do 2 apply touch_not_dir. apply Hnd. set_solver.
  - unfold ret at 1. apply IH.
    + now apply touch_fault_free.
    + intros p Hp. apply touch_not_dir. apply Hnd. set_solver.
Qed.

(** When SIGHUP is caught or ignored, [CreateFile] returns whatever
    happens, and so does the loop: every path is attempted. *)
Lemma CreateFile_returns_otherwise (path : string) (w : World) :
  w_sighup w ≠ SIG_DFL ->
  ∃ w', CreateFile G strerror path w = Ret tt w' ∧ w_sighup w' = w_sighup w ∧
        attempts (w_trace w') = (attempts (w_trace w) ++ [path])%list.
Proof.
  intros Hs. unfold CreateFile. unfold bind at 1, lift.
  pose proof (sys_fopen_extends path ModeWPlus w) as (Ht1 & Hs1 & _).
  destruct (sys_fopen path ModeWPlus w) as [fp w1]; simpl in Ht1, Hs1.
  assert (Hopen : ∃ w2, (if negb fp
                         then e <- get_errno ;;
                              PrintMsg G ("Error creating file %s %s" +:+ nl)
                                       [path; strerror e] ;; KillSelf
                         else ret tt) w1 = Ret tt w2 ∧
                        w_sighup w2 = w_sighup w ∧
                        attempts (w_trace w2) = (attempts (w_trace w) ++ [path])%list).
  { assert (Ha1 : attempts (w_trace w1) = (attempts (w_trace w) ++ [path])%list)
      by (rewrite Ht1, attempts_app; reflexivity).
    destruct fp; simpl.
    - exists w1. auto.
    - unfold bind at 1, get_errno. rewrite PrintMsg_bind.
      set (w1' := final (PrintMsg G _ _ w1)).
      destruct (PrintMsg_frame G ("Error creating file %s %s" +:+ nl)
                  [path; strerror (w_errno w1)] w1) as (Hs' & _ & Ha' & _).
      fold w1' in Hs', Ha'.
      destruct (KillSelf_otherwise w1') as (w2 & Hk & (Ht2 & Hs2 & _) & _);
        [congruence |].
      exists w2. split; [exact Hk |]. split; [congruence |].
      rewrite Ht2, attempts_app, Ha', Ha1. simpl. now rewrite app_nil_r. }
  destruct Hopen as (w2 & Ho & Hs2 & Ha2).
  unfold bind at 1. rewrite Ho. unfold bind at 1, lift.
  pose proof (sys_setxattr_extends path (g_LocallyGeneratedFiles G) "1" 0 w2)
    as (Ht3 & Hs3 & _).
  destruct (sys_setxattr path (g_LocallyGeneratedFiles G) "1" 0 w2) as [status w3];
    simpl in Ht3, Hs3.
  assert (Ha3 : attempts (w_trace w3) = (attempts (w_trace w) ++ [path])%list).
  { rewrite Ht3, attempts_app, Ha2. simpl. now rewrite app_nil_r. }
  destruct (status =? 0)%Z; simpl.
  - exists w3. split; [reflexivity |]. split; [congruence | exact Ha3].
  - unfold bind at 1, get_errno. rewrite PrintMsg_bind.
    set (w3' := final (PrintMsg G _ _ w3)).
    destruct (PrintMsg_frame G
                ("Error setting extended attributes for file %s : %s" +:+ nl)
                [path; strerror (w_errno w3)] w3) as (Hs' & _ & Ha' & _).
    fold w3' in Hs', Ha'.
    destruct (KillSelf_otherwise w3') as (w4 & Hk & (Ht4 & Hs4 & _) & _);
      [congruence |].
    exists w4. split; [exact Hk |]. split; [congruence |].
    rewrite Ht4, attempts_app, Ha', Ha3. simpl. now rewrite app_nil_r.
Qed.

Lemma create_items_all_attempted (items : list string) (w : World) :
  w_sighup w ≠ SIG_DFL ->
  ∃ w', create_items G strerror dumpDir version items w = Ret tt w' ∧
        w_sighup w' = w_sighup w ∧
        attempts (w_trace w')
        = (attempts (w_trace w) ++ dmv_paths dumpDir version items)%list.
Proof.
  revert w. induction items as [|name rest IH]; intros w Hs.
  - exists w. simpl. now rewrite app_nil_r.
  - simpl. unfold bind at 1 2.
    destruct (CreateFile_returns_otherwise (dumpDir +:+ "/" +:+ name) w Hs)
      as (w1 & -> & Hs1 & Ha1).
    destruct (16 <=? version)%Z.
    + destruct (CreateFile_returns_otherwise
                  ((dumpDir +:+ "/" +:+ name) +:+ ".json") w1)
        as (w2 & -> & Hs2 & Ha2); [congruence |].
      destruct (IH w2) as (w3 & -> & Hs3 & Ha3); [congruence |].
      exists w3. split; [reflexivity |]. split; [congruence |].
      rewrite Ha3, Ha2, Ha1. simpl. now rewrite <- !app_assoc.
    + unfold ret at 1.
      destruct (IH w1) as (w3 & -> & Hs3 & Ha3); [congruence |].
      exists w3. split; [reflexivity |]. split; [congruence |].
      rewrite Ha3, Ha1. simpl. now rewrite <- !app_assoc.
Qed.
End LoopFacts.

(** ** CreateDMVFiles *)

Section CreateDMVFilesFacts.
Variables (G : Globals) (NDEBUG : bool) (strerror : Z -> string) (TYPE_TSV : Z).
Variable Split : string -> ascii -> list string.
Variable ExecuteQuery : string -> string -> string -> string -> Z -> M (Z * string).
Variables (dumpDir servername hostname username password : string) (version : Z).

Local Abbreviation run :=
  (CreateDMVFiles G NDEBUG strerror TYPE_TSV Split ExecuteQuery
                  dumpDir servername hostname username password version).

(** After a successful query that gave a header and at least one data
    row, [CreateDMVFiles] is the loop over the data rows. *)
Lemma CreateDMVFiles_rows (response header name : string) (rest : list string)
    (w w1 : World) :
  ExecuteQuery dmvQuery hostname username password TYPE_TSV w
  = Ret (0%Z, response) w1 ->
  Split response LF = header :: name :: rest ->
  (Z.of_nat (List.length (header :: name :: rest)) < 2 ^ 31)%Z ->
  run w = create_items G strerror dumpDir version (name :: rest) w1.
Proof.
  intros Hq Hs Hlen. unfold CreateDMVFiles.
  unfold bind at 1. rewrite Hq. cbv iota beta. change (negb (0 =? 0)%Z) with false.
  cbv iota. rewrite Hs. rewrite (to_int_small _ (conj (Nat2Z.is_nonneg _) Hlen)).
  unfold bind at 1, assert.
  assert (Hgt : (1 <? Z.of_nat (List.length (header :: name :: rest)))%Z = true).
  { apply Z.ltb_lt. simpl List.length. lia. }
  rewrite Hgt, orb_true_r.
  rewrite <- (to_int_small _ (conj (Nat2Z.is_nonneg _) Hlen)).
  apply loop_whole. exact Hlen.
Qed.

(** A result without a data row: the assertion decides. *)
Lemma CreateDMVFiles_no_rows (response : string) (w w1 : World) :
  ExecuteQuery dmvQuery hostname username password TYPE_TSV w
  = Ret (0%Z, response) w1 ->
  (List.length (Split response LF) ≤ 1)%nat ->
  run w = if NDEBUG then Ret tt w1
          else Halt ByAbort
                 (record EvAbort
                    (put_stderr "Assertion failed: numEntries > 1" w1)).
Proof.
  intros Hq Hlen. unfold CreateDMVFiles.
  unfold bind at 1. rewrite Hq. cbv iota beta. change (negb (0 =? 0)%Z) with false.
  cbv iota.
  assert (Hn : to_int (Z.of_nat (List.length (Split response LF)))
               = Z.of_nat (List.length (Split response LF))).
  { apply to_int_small. split; [lia |].
    apply Z.le_lt_trans with 1%Z; [lia | reflexivity]. }
  rewrite Hn. unfold bind at 1, assert.
  assert (Hgt : (1 <? Z.of_nat (List.length (Split response LF)))%Z = false).
  { apply Z.ltb_ge. lia. }
  rewrite Hgt, orb_false_r. destruct NDEBUG; [| reflexivity].
  unfold for_int.
  destruct (Split response LF) as [|header [|? ?]]; simpl in *;
    [reflexivity | reflexivity | lia].
Qed.
End CreateDMVFilesFacts.

Lemma sys_fopen_failed path mode w w' :
  sys_fopen path mode w = (false, w') ->
  w_stderr w' = w_stderr w ∧ w_fs w' = w_fs w ∧ w_sighup w' = w_sighup w ∧
  w_trace w' = (w_trace w ++ [EvFopen path mode false])%list.
Proof.
  unfold sys_fopen. destruct (fault_now w); [now intros [= <-] |].
  destruct (w_fs w !! path) as [n|]; [destruct (i_dir n) |];
    intros [= <-] || discriminate; auto.
Qed.

Lemma sys_mkdir_failed path mode w r w' :
  sys_mkdir path mode w = (r, w') -> r ≠ 0%Z ->
  w_stderr w' = w_stderr w ∧ w_fs w' = w_fs w ∧ w_sighup w' = w_sighup w ∧
  w_trace w' = (w_trace w ++ [EvMkdir path mode (-1)])%list.
Proof.
  unfold sys_mkdir. destruct (fault_now w); [now intros [= <- <-] |].
  destruct (w_fs w !! path) as [n|]; intros [= <- <-]; [auto | congruence].
Qed.

Lemma CreateFile_open_failed G strerror path w w' :
  sys_fopen path ModeWPlus w = (false, w') ->
  CreateFile_open G strerror path w
  = KillSelf (final (PrintMsg G ("Error creating file %s %s" +:+ nl)
                              [path; strerror (w_errno w')] w')).
Proof.
  intros H. unfold CreateFile_open. unfold bind at 1, lift. rewrite H.
  change (negb false) with true. cbv beta iota.
  unfold bind at 1, get_errno. cbv beta iota.
  now rewrite PrintMsg_bind.
Qed.

Section Materialization.
Variables (G : Globals) (NDEBUG : bool) (strerror : Z -> string).
Variables (LINUX_PATH_DELIM CUSTOM_QUERY_FOLDER_NAME : string).
Variables (DEFAULT_PERMISSIONS TYPE_TSV : Z).
Variable Split : string -> ascii -> list string.
Variable ExecuteQuery : string -> string -> string -> string -> Z -> M (Z * string).
Variable CreateCustomQueriesOutputFiles : string -> string -> M unit.
Variables (servername hostname username password : string) (version : Z).

Local Abbreviation DMV dumpDir :=
  (CreateDMVFiles G NDEBUG strerror TYPE_TSV Split ExecuteQuery
                  dumpDir servername hostname username password version).
Local Abbreviation query :=
  (ExecuteQuery dmvQuery hostname username password TYPE_TSV).

(** C3. After a successful catalog query whose rows are "ColumnName", "a",
    "b", with every system call succeeding, [CreateDMVFiles] returns having
    created exactly the files a and b of the server directory when the
    version is below 16 (15 in particular), and exactly a, a.json, b,
    b.json, in this order, when the version is 16 or more: these and no
    others were attempted, each is an empty file tagged with the
    provenance attribute, the header row gives no file, and the rest of
    the file system is as it was. *)
Theorem CreateDMVFiles_header_a_b (dumpDir response : string) (w w1 : World) :
  query w = Ret (0%Z, response) w1 ->
  Split response LF = ["ColumnName"; "a"; "b"] ->
  let a := dumpDir +:+ "/a" in
  let b := dumpDir +:+ "/b" in
  let files := if (16 <=? version)%Z
               then [a; a +:+ ".json"; b; b +:+ ".json"] else [a; b] in
  fault_free w1 ->
  forallb (not_dir (w_fs w1)) files = true ->
  ∃ w', DMV dumpDir w = Ret tt w' ∧
        attempts (w_trace w') = (attempts (w_trace w1) ++ files)%list ∧
        creations (w_trace w') = (creations (w_trace w1) ++ files)%list ∧
        dom (w_fs w') = dom (w_fs w1) ∪ list_to_set files ∧
        (∀ p, p ∈ files ->
              is_placeholder (w_fs w') p (g_LocallyGeneratedFiles G) = true) ∧
        (∀ p, p ∉ files -> w_fs w' !! p = w_fs w1 !! p).
Proof.
  intros Hq Hs a b files Hff Hnd.
  assert (Hfiles : files = dmv_paths dumpDir version ["a"; "b"]).
  { subst files a b. unfold dmv_paths. simpl. now destruct (16 <=? version)%Z. }
  clearbody files. subst files.
  assert (Hnd' : ∀ p, p ∈ dmv_paths dumpDir version ["a"; "b"] ->
                      not_dir (w_fs w1) p = true).
  { intros p Hp. apply (proj1 (forallb_forall _ _) Hnd).
    now apply list_elem_of_In. }
  exists (touch_all (g_LocallyGeneratedFiles G)
                    (dmv_paths dumpDir version ["a"; "b"]) w1).
  split.
  {
    rewrite (CreateDMVFiles_rows G NDEBUG strerror TYPE_TSV Split ExecuteQuery
               dumpDir servername hostname username password version
               response "ColumnName" "a" ["b"] w w1 Hq Hs) by (simpl; lia).
    now apply create_items_ok. }
  destruct (touch_all_trace (g_LocallyGeneratedFiles G)
              (dmv_paths dumpDir version ["a"; "b"]) w1) as (Ha & Hc & _).
  split; [exact Ha |]. split; [exact Hc |].
  split; [apply touch_all_dom |].
  split; [intros p Hp; now apply touch_all_placeholders |].
  intros p Hp. now apply touch_all_other.
Qed.

(** C1 (as amended). When the loop has dealt with some rows and the
    creation of the placeholder of the next row fails, the failure is handed
    to [PrintMsg] with the path and the text of [errno] (in verbose mode
    without a log file this is the next line of stderr), and the next thing
    the program does is [KillSelf]. With the default action of SIGHUP the
    process ends there: the loop is left and no later row is attempted. *)
Theorem CreateDMVFiles_creation_failure_escalates
    (dumpDir response header name : string) (done rest : list string)
    (w w1 w1' w2 : World) :
  query w = Ret (0%Z, response) w1 ->
  Split response LF = header :: done ++ name :: rest ->
  (Z.of_nat (List.length (header :: done ++ name :: rest)) < 2 ^ 31)%Z ->
  create_items G strerror dumpDir version done w1 = Ret tt w1' ->
  let path := dumpDir +:+ "/" +:+ name in
  sys_fopen path ModeWPlus w1' = (false, w2) ->
  let w3 := final (PrintMsg G ("Error creating file %s %s" +:+ nl)
                            [path; strerror (w_errno w2)] w2) in
  (g_InVerbose G = true -> g_UseLogFile G = false ->
   w_stderr w3
   = (w_stderr w1'
      ++ ["Error creating file " +:+ path +:+ " " +:+ strerror (w_errno w2) +:+ nl])%list) ∧
  DMV dumpDir w
  = (KillSelf ;;
     CreateFile_tag G strerror path ;;
     (if (16 <=? version)%Z then CreateFile G strerror (path +:+ ".json")
      else ret tt) ;;
     create_items G strerror dumpDir version rest) w3 ∧
  (w_sighup w1' = SIG_DFL ->
   DMV dumpDir w = Halt BySighup (record EvKill w3) ∧
   attempts (w_trace (record EvKill w3)) = (attempts (w_trace w1') ++ [path])%list).
Proof.
  intros Hq Hs Hlen Hdone path Hopen w3.
  destruct (sys_fopen_failed _ _ _ _ Hopen) as (He & _ & Hsig & Ht).
  destruct (PrintMsg_frame G ("Error creating file %s %s" +:+ nl)
              [path; strerror (w_errno w2)] w2) as (Hs3 & _ & Ha3 & _).
  fold w3 in Hs3, Ha3.
  assert (Hloop : DMV dumpDir w
                  = create_items G strerror dumpDir version (name :: rest) w1').
  { destruct (done ++ name :: rest)%list as [|first others] eqn:Hrows;
      [now destruct done |].
    rewrite (CreateDMVFiles_rows G NDEBUG strerror TYPE_TSV Split ExecuteQuery
               dumpDir servername hostname username password version
               response header first others w w1 Hq Hs Hlen).
    rewrite <- Hrows, create_items_app. unfold bind at 1. now rewrite Hdone. }
  assert (Hrun : DMV dumpDir w
                 = (KillSelf ;;
                    CreateFile_tag G strerror path ;;
                    (if (16 <=? version)%Z
                     then CreateFile G strerror (path +:+ ".json") else ret tt) ;;
                    create_items G strerror dumpDir version rest) w3).
  { rewrite Hloop.
    simpl. fold path. unfold bind. rewrite CreateFile_halves. unfold bind.
    rewrite (CreateFile_open_failed G strerror path w1' w2 Hopen). fold w3.
    destruct (KillSelf w3) as [[] w'|h w']; [| reflexivity].
    destruct (CreateFile_tag G strerror path w') as [[] w''|h w''];
      reflexivity. }
  split; [| split; [exact Hrun |]].
  - intros Hv Hl. subst w3. rewrite PrintMsg_stderr by assumption.
    simpl. rewrite He. subst path.
    change (StringFormat ("Error creating file %s %s" +:+ nl)
              [dumpDir +:+ "/" +:+ name; strerror (w_errno w2)])
      with ("Error creating file " +:+ (dumpDir +:+ "/" +:+ name) +:+ " "
            +:+ strerror (w_errno w2) +:+ nl).
    reflexivity.
  - intros Hd. split.
    + rewrite Hrun. unfold bind at 1.
      rewrite KillSelf_default by congruence. reflexivity.
    + simpl. rewrite attempts_app, Ha3, Ht, attempts_app. simpl.
      now rewrite !app_nil_r.
Qed.

(** C2 (as amended). After a successful catalog query whose result has at
    most one row, [CreateDMVFiles] creates no file and prints nothing
    through [PrintMsg]: compiled with NDEBUG it returns with the world as
    the query left it; otherwise the assertion [numEntries > 1] fails and
    the process is aborted before the loop. *)
Theorem CreateDMVFiles_degenerate_result (dumpDir response : string) (w w1 : World) :
  query w = Ret (0%Z, response) w1 ->
  (List.length (Split response LF) ≤ 1)%nat ->
  let o := DMV dumpDir w in
  o = (if NDEBUG then Ret tt w1
       else Halt ByAbort
              (record EvAbort (put_stderr "Assertion failed: numEntries > 1" w1))) ∧
  attempts (w_trace (final o)) = attempts (w_trace w1) ∧
  w_fs (final o) = w_fs w1 ∧
  kills (w_trace (final o)) = kills (w_trace w1).
Proof.
  intros Hq Hlen o. subst o.
  rewrite (CreateDMVFiles_no_rows G NDEBUG strerror TYPE_TSV Split ExecuteQuery
             dumpDir servername hostname username password version
             response w w1 Hq Hlen).
  split; [reflexivity |].
  destruct NDEBUG; simpl; [auto |].
  rewrite attempts_app, kills_app. simpl. rewrite app_nil_r.
  repeat split; auto with lia.
Qed.
End Materialization.

(** ** CreateDbfsFiles *)

Lemma KillSelf_frame w :
  w_fs (final (KillSelf w)) = w_fs w ∧
  attempts (w_trace (final (KillSelf w))) = attempts (w_trace w) ∧
  kills (w_trace (final (KillSelf w))) = S (kills (w_trace w)).
Proof.
  rewrite KillSelf_trace, attempts_app, kills_app. simpl.
  change (kills [EvKill]) with 1%nat. rewrite app_nil_r.
  repeat split; [| lia].
  unfold KillSelf, sys_kill_self_SIGHUP, bind, ret. now destruct (w_sighup w).
Qed.

Section Servers.
Variables (G : Globals) (NDEBUG : bool) (strerror : Z -> string).
Variables (LINUX_PATH_DELIM CUSTOM_QUERY_FOLDER_NAME : string).
Variables (DEFAULT_PERMISSIONS TYPE_TSV : Z).
Variable Split : string -> ascii -> list string.
Variable ExecuteQuery : string -> string -> string -> string -> Z -> M (Z * string).
Variable CreateCustomQueriesOutputFiles : string -> string -> M unit.
Variables (servername hostname username password : string) (version : Z).

Local Abbreviation Dbfs :=
  (CreateDbfsFiles G NDEBUG strerror LINUX_PATH_DELIM CUSTOM_QUERY_FOLDER_NAME
                   DEFAULT_PERMISSIONS TYPE_TSV Split ExecuteQuery
                   CreateCustomQueriesOutputFiles
                   servername hostname username password version).
Local Abbreviation fpath := (CalculateDumpPath G servername).
Local Abbreviation logfile := (m_logfilePath (g_UserPaths G)).
Local Abbreviation exiting :=
  ("There was an error creating the folders to hold the server DMV files. Exiting."
   +:+ nl).

(** Any failure of the [mkdir] of the server directory leads to the two
    messages and then to [KillSelf], and to nothing else. *)
Lemma CreateDbfsFiles_mkdir_failed (r : Z) (w w1 : World) :
  sys_mkdir fpath DEFAULT_PERMISSIONS w = (r, w1) -> r ≠ 0%Z ->
  Dbfs w
  = KillSelf
      (final (PrintMsg G exiting []
         (final (PrintMsg G ("mkdir failed for %s- %s" +:+ nl)
                          [fpath; strerror (w_errno w1)] w1)))).
Proof.
  intros Hm Hr. unfold CreateDbfsFiles. unfold bind at 1, lift. rewrite Hm.
  cbv beta iota.
  destruct (r =? 0)%Z eqn:E; [apply Z.eqb_eq in E; congruence |].
  unfold bind at 1, get_errno. cbv beta iota.
  now rewrite !PrintMsg_bind.
Qed.

(** C5 (as amended). When the creation of the server directory fails for a
    reason other than "already exists", [CreateDbfsFiles] prints its two
    messages and calls [KillSelf], and does nothing else: SIGHUP is sent
    once, no creation of a DMV or custom query file is attempted, and no
    path other than the log file is changed. The process ends there when
    SIGHUP has its default action; when SIGHUP is caught or ignored the
    function returns to its caller. *)
Theorem CreateDbfsFiles_root_failure_is_fatal (r : Z) (w w1 : World) :
  sys_mkdir fpath DEFAULT_PERMISSIONS w = (r, w1) -> r ≠ 0%Z ->
  w_errno w1 ≠ EEXIST ->
  let w2 := final (PrintMsg G ("mkdir failed for %s- %s" +:+ nl)
                            [fpath; strerror (w_errno w1)] w1) in
  let w3 := final (PrintMsg G exiting [] w2) in
  let o := Dbfs w in
  o = KillSelf w3 ∧
  attempts (w_trace (final o)) = attempts (w_trace w) ∧
  kills (w_trace (final o)) = S (kills (w_trace w)) ∧
  (∀ p, p ≠ logfile -> w_fs (final o) !! p = w_fs w !! p) ∧
  (w_sighup w = SIG_DFL -> o = Halt BySighup (record EvKill w3)) ∧
  (w_sighup w ≠ SIG_DFL -> ∃ w', o = Ret tt w').
Proof.
  intros Hm Hr _ w2 w3 o.
  assert (Ho : o = KillSelf w3) by (now apply (CreateDbfsFiles_mkdir_failed r)).
  destruct (sys_mkdir_failed _ _ _ _ _ Hm Hr) as (_ & Hfs1 & Hs1 & Ht1).
  destruct (PrintMsg_frame G ("mkdir failed for %s- %s" +:+ nl)
              [fpath; strerror (w_errno w1)] w1) as (Hs2 & _ & Ha2 & Hk2 & Hfs2).
  destruct (PrintMsg_frame G exiting [] w2) as (Hs3 & _ & Ha3 & Hk3 & Hfs3).
  fold w2 in Hs2, Ha2, Hk2, Hfs2. fold w3 in Hs3, Ha3, Hk3, Hfs3.
  destruct (KillSelf_frame w3) as (Hfs & Ha & Hk).
  split; [exact Ho |]. rewrite Ho.
  split; [| split; [| split; [| split]]].
  - rewrite Ha, Ha3, Ha2, Ht1, attempts_app. simpl. now rewrite app_nil_r.
  - rewrite Hk, Hk3, Hk2, Ht1, kills_app. simpl. change (kills [_]) with 0%nat. lia.
  - intros p Hp. rewrite Hfs, Hfs3, Hfs2, Hfs1 by exact Hp. reflexivity.
  - intros Hd. apply KillSelf_default. congruence.
  - intros Hd. destruct (KillSelf_otherwise w3) as (w' & Hk' & _); [congruence |].
    exists w'. exact Hk'.
Qed.

(** The same holds when the directory is already there: EEXIST is not
    told apart from the other failures. *)
Remark CreateDbfsFiles_existing_root_is_fatal (n : inode) (w : World) :
  fault_now w = None -> w_fs w !! fpath = Some n ->
  kills (w_trace (final (Dbfs w))) = S (kills (w_trace w)) ∧
  attempts (w_trace (final (Dbfs w))) = attempts (w_trace w).
Proof.
  intros Hf Hn.
  assert (Hm : sys_mkdir fpath DEFAULT_PERMISSIONS w
               = ((-1)%Z, sys_fail EEXIST (EvMkdir fpath DEFAULT_PERMISSIONS (-1)) w)).
  { unfold sys_mkdir. now rewrite Hf, Hn. }
  rewrite (CreateDbfsFiles_mkdir_failed _ _ _ Hm) by lia.
  set (w1 := sys_fail _ _ w).
  set (w2 := final (PrintMsg G ("mkdir failed for %s- %s" +:+ nl)
                             [fpath; strerror (w_errno w1)] w1)).
  destruct (PrintMsg_frame G ("mkdir failed for %s- %s" +:+ nl)
              [fpath; strerror (w_errno w1)] w1) as (_ & _ & Ha2 & Hk2 & _).
  destruct (PrintMsg_frame G exiting [] w2) as (_ & _ & Ha3 & Hk3 & _).
  fold w2 in Ha2, Hk2.
  destruct (KillSelf_frame (final (PrintMsg G exiting [] w2))) as (_ & Ha & Hk).
  rewrite Ha, Hk, Ha3, Hk3, Ha2, Hk2. subst w1. simpl.
  rewrite attempts_app, kills_app. simpl. change (kills [_]) with 0%nat.
  rewrite app_nil_r. split; [lia | reflexivity].
Qed.

Local Abbreviation customQueryFolderPath :=
  (fpath +:+ LINUX_PATH_DELIM +:+ CUSTOM_QUERY_FOLDER_NAME).

(** C7. When the server directory was created and the [mkdir] of the
    custom query folder fails, [CreateCustomQueriesDir] prints "mkdir
    failed for <folder>- <reason>" and returns: it sends no signal, does
    not call [CreateCustomQueriesOutputFiles] and attempts no creation;
    [CreateDbfsFiles] then goes on with [CreateDMVFiles] for the same
    server, and the DMV placeholders are created: when the catalog query
    then succeeds with a header and data rows and the system calls succeed,
    [CreateDbfsFiles] returns with the placeholder of every data row (and
    its .json sibling from version 16 on) created and tagged. *)
Theorem CreateDbfsFiles_custom_dir_failure_tolerated (r : Z) (w w1 w2 : World) :
  sys_mkdir fpath DEFAULT_PERMISSIONS w = (0%Z, w1) ->
  sys_mkdir customQueryFolderPath DEFAULT_PERMISSIONS w1 = (r, w2) -> r ≠ 0%Z ->
  let w3 := final (PrintMsg G ("mkdir failed for %s- %s" +:+ nl)
                            [customQueryFolderPath; strerror (w_errno w2)] w2) in
  CreateCustomQueriesDir G strerror LINUX_PATH_DELIM CUSTOM_QUERY_FOLDER_NAME
                         DEFAULT_PERMISSIONS CreateCustomQueriesOutputFiles
                         fpath servername w1 = Ret tt w3 ∧
  (g_InVerbose G = true -> g_UseLogFile G = false ->
   w_stderr w3
   = (w_stderr w1 ++ ["mkdir failed for " +:+ customQueryFolderPath +:+ "- "
                      +:+ strerror (w_errno w2) +:+ nl])%list) ∧
  kills (w_trace w3) = kills (w_trace w1) ∧
  attempts (w_trace w3) = attempts (w_trace w1) ∧
  Dbfs w
  = CreateDMVFiles G NDEBUG strerror TYPE_TSV Split ExecuteQuery
                   fpath servername hostname username password version w3 ∧
  (∀ (response header name : string) (rest : list string) (w4 : World),
     ExecuteQuery dmvQuery hostname username password TYPE_TSV w3
     = Ret (0%Z, response) w4 ->
     Split response LF = header :: name :: rest ->
     (Z.of_nat (List.length (header :: name :: rest)) < 2 ^ 31)%Z ->
     fault_free w4 ->
     forallb (not_dir (w_fs w4)) (dmv_paths fpath version (name :: rest)) = true ->
     ∃ w', Dbfs w = Ret tt w' ∧
           attempts (w_trace w')
           = (attempts (w_trace w4) ++ dmv_paths fpath version (name :: rest))%list ∧
           creations (w_trace w')
           = (creations (w_trace w4) ++ dmv_paths fpath version (name :: rest))%list ∧
           (∀ p, p ∈ dmv_paths fpath version (name :: rest) ->
                 is_placeholder (w_fs w') p (g_LocallyGeneratedFiles G) = true)).
Proof.
  intros Hroot Hm Hr w3.
  destruct (sys_mkdir_failed _ _ _ _ _ Hm Hr) as (He & _ & _ & Ht).
  destruct (PrintMsg_frame G ("mkdir failed for %s- %s" +:+ nl)
              [customQueryFolderPath; strerror (w_errno w2)] w2)
    as (_ & _ & Ha3 & Hk3 & _).
  fold w3 in Ha3, Hk3.
  assert (Hdir : CreateCustomQueriesDir G strerror LINUX_PATH_DELIM
                   CUSTOM_QUERY_FOLDER_NAME DEFAULT_PERMISSIONS
                   CreateCustomQueriesOutputFiles fpath servername w1 = Ret tt w3).
  { unfold CreateCustomQueriesDir. unfold bind at 1, lift. rewrite Hm.
    cbv beta iota.
    destruct (r =? 0)%Z eqn:E; [apply Z.eqb_eq in E; congruence |].
    unfold bind at 1, get_errno. cbv beta iota. apply PrintMsg_returns. }
  assert (Hgo : Dbfs w
                = CreateDMVFiles G NDEBUG strerror TYPE_TSV Split ExecuteQuery
                    fpath servername hostname username password version w3).
  { unfold CreateDbfsFiles. unfold bind at 1, lift. rewrite Hroot.
    cbv beta iota. change (0 =? 0)%Z with true. cbv iota.
    unfold bind at 1. now rewrite Hdir. }
  split; [exact Hdir |]. split; [| split; [| split; [| split]]].
  - intros Hv Hl. subst w3. rewrite PrintMsg_stderr by assumption.
    simpl. now rewrite He.
  - rewrite Hk3, Ht, kills_app. change (kills [_]) with 0%nat. lia.
  - rewrite Ha3, Ht, attempts_app. simpl. now rewrite app_nil_r.
  - exact Hgo.
  - intros response header name rest w4 Hq Hs Hlen Hff Hnd.
    set (paths := dmv_paths fpath version (name :: rest)) in *.
    exists (touch_all (g_LocallyGeneratedFiles G) paths w4).
    destruct (touch_all_trace (g_LocallyGeneratedFiles G) paths w4)
      as (Ha & Hc & _).
    split; [| split; [exact Ha | split; [exact Hc |]]].
    + rewrite Hgo.
      rewrite (CreateDMVFiles_rows G NDEBUG strerror TYPE_TSV Split ExecuteQuery
                 fpath servername hostname username password version
                 response header name rest w3 w4 Hq Hs Hlen).
      apply create_items_ok; [exact Hff |].
      intros p Hp. apply (proj1 (forallb_forall _ _) Hnd).
      now apply list_elem_of_In.
    + intros p Hp. now apply touch_all_placeholders.
Qed.
End Servers.

(** ** The theorems at work in the sample installation *)

Section Instances.
Import Sample.

Local Abbreviation granted := (server_world no_fault SIG_DFL).
Local Abbreviation refused := (server_world (denied_at 0) SIG_DFL).
Local Abbreviation refused_b := (server_world (denied_at 2) SIG_DFL).
Local Abbreviation after_a := (touch "user.dbfs.generated" "/dump/srv/a" refused_b).

(** An unknown server under the default action of SIGHUP: the message, the
    signal, the end of the process. *)
Lemma GetServerDetails_unknown_server_witness :
  g_ServerInfoMap G !! "elsewhere" = None ∧
  GetServerDetails G "elsewhere" (mkDetails "h" "u" "p") granted
  = Halt BySighup
      (record EvKill (put_stderr ("Unknown server elsewhere" +:+ nl) granted)).
Proof.
  split; [reflexivity |].
  exact (proj2 (proj2 (proj2
           (GetServerDetails_unknown_server G "elsewhere" (mkDetails "h" "u" "p")
              granted eq_refl))) eq_refl).
Defined.

(** An unknown server when SIGHUP is caught: the caller finds its three
    strings as it left them. *)
Lemma GetServerDetails_unknown_keeps_outputs_witness :
  g_ServerInfoMap G !! "elsewhere" = None ∧
  ∃ w', GetServerDetails G "elsewhere" (mkDetails "h" "u" "p")
                         (server_world no_fault SIG_CATCH)
        = Ret (mkDetails "h" "u" "p") w'.
Proof.
  split; [reflexivity |].
  apply (GetServerDetails_unknown_keeps_outputs G "elsewhere"
           (mkDetails "h" "u" "p") (server_world no_fault SIG_CATCH) eq_refl).
  discriminate.
Defined.

(** Version 15: a and b. *)
Lemma CreateDMVFiles_header_a_b_witness :
  Split catalog_ab LF = ["ColumnName"; "a"; "b"] ∧
  ∃ w', CreateDMVFiles_on false catalog_ab 15 granted = Ret tt w' ∧
        creations (w_trace w') = ["/dump/srv/a"; "/dump/srv/b"].
Proof.
  split; [reflexivity |].
  destruct (CreateDMVFiles_header_a_b G false strerror 0 Split (answers 0 catalog_ab)
              "srv" "10.0.0.5" "sa" "secret" 15 "/dump/srv" catalog_ab
              granted granted eq_refl eq_refl (λ n _, eq_refl) eq_refl)
    as (w' & Hrun & _ & Hc & _).
  exists w'. split; [exact Hrun | exact Hc].
Defined.

(** Version 16: a, a.json, b, b.json. *)
Example CreateDMVFiles_header_a_b_version_16 :
  ∃ w', CreateDMVFiles_on false catalog_ab 16 granted = Ret tt w' ∧
        creations (w_trace w')
        = ["/dump/srv/a"; "/dump/srv/a.json"; "/dump/srv/b"; "/dump/srv/b.json"].
Proof.
  exists (final (CreateDMVFiles_on false catalog_ab 16 granted)).
  split; vm_compute; reflexivity.
Qed.

(** The placeholder of a was made, that of b cannot be, and SIGHUP has its
    default action: the process ends in [CreateFile]. *)
Lemma CreateDMVFiles_creation_failure_escalates_witness :
  create_items G strerror "/dump/srv" 15 ["a"] refused_b = Ret tt after_a ∧
  sys_fopen "/dump/srv/b" ModeWPlus after_a
  = (false, snd (sys_fopen "/dump/srv/b" ModeWPlus after_a)) ∧
  CreateDMVFiles_on false catalog_ab 15 refused_b
  = Halt BySighup
      (record EvKill
         (put_stderr ("Error creating file /dump/srv/b Permission denied" +:+ nl)
                     (snd (sys_fopen "/dump/srv/b" ModeWPlus after_a)))).
Proof.
  split; [reflexivity |]. split; [reflexivity |].
  exact (proj1 (proj2 (proj2
           (CreateDMVFiles_creation_failure_escalates G false strerror 0 Split
              (answers 0 catalog_ab) "srv" "10.0.0.5" "sa" "secret" 15
              "/dump/srv" catalog_ab "ColumnName" "b" ["a"] []
              refused_b refused_b after_a
              (snd (sys_fopen "/dump/srv/b" ModeWPlus after_a))
              eq_refl eq_refl eq_refl eq_refl eq_refl)) eq_refl)).
Defined.

(** A header and nothing else, assertions compiled in: the process is
    aborted. *)
Lemma CreateDMVFiles_degenerate_result_witness :
  (List.length (Split catalog_header_only LF) ≤ 1)%nat ∧
  CreateDMVFiles_on false catalog_header_only 15 granted
  = Halt ByAbort
      (record EvAbort (put_stderr "Assertion failed: numEntries > 1" granted)).
Proof.
  split; [vm_compute; lia |].
  exact (proj1 (CreateDMVFiles_degenerate_result G false strerror 0 Split
                  (answers 0 catalog_header_only) "srv" "10.0.0.5" "sa" "secret"
                  15 "/dump/srv" catalog_header_only granted granted eq_refl
                  (le_n 1))).
Defined.

Local Abbreviation no_root := (world (denied_at 0) SIG_DFL).

(** The server directory cannot be made: two lines on stderr, SIGHUP, and
    the process ends without a single file. *)
Lemma CreateDbfsFiles_root_failure_is_fatal_witness :
  sys_mkdir "/dump/srv" 493 no_root = ((-1)%Z, snd (sys_mkdir "/dump/srv" 493 no_root)) ∧
  CreateDbfsFiles_on 15 no_root
  = Halt BySighup
      (record EvKill
         (put_stderr
            ("There was an error creating the folders to hold the server DMV files. Exiting."
             +:+ nl)
            (put_stderr ("mkdir failed for /dump/srv- Permission denied" +:+ nl)
                        (snd (sys_mkdir "/dump/srv" 493 no_root))))).
Proof.
  split; [reflexivity |].
  refine (proj1 (proj2 (proj2 (proj2 (proj2
            (CreateDbfsFiles_root_failure_is_fatal G false strerror "/" "customQueries"
               493 0 Split (answers 0 catalog_ab) custom
               "/srv" "10.0.0.5" "sa" "secret" 15 (-1) no_root
               (snd (sys_mkdir "/dump/srv" 493 no_root)) eq_refl _ _))))) eq_refl).
  - lia.
  - simpl. unfold EEXIST. lia.
Defined.

Local Abbreviation no_folder := (world (denied_at 1) SIG_DFL).
Local Abbreviation with_root := (snd (sys_mkdir "/dump/srv" 493 no_folder)).
Local Abbreviation without_folder :=
  (snd (sys_mkdir "/dump/srv/customQueries" 493 with_root)).

(** The custom query folder cannot be made: one line on stderr, and the
    DMV files are created all the same. *)
Lemma CreateDbfsFiles_custom_dir_failure_tolerated_witness :
  sys_mkdir "/dump/srv" 493 no_folder = (0%Z, with_root) ∧
  sys_mkdir "/dump/srv/customQueries" 493 with_root = ((-1)%Z, without_folder) ∧
  CreateCustomQueriesDir G strerror "/" "customQueries" 493 custom
                         "/dump/srv" "/srv" with_root
  = Ret tt (put_stderr
              ("mkdir failed for /dump/srv/customQueries- Permission denied" +:+ nl)
              without_folder) ∧
  ∃ w', CreateDbfsFiles_on 15 no_folder = Ret tt w' ∧
        creations (w_trace w') = ["/dump/srv/a"; "/dump/srv/b"] ∧
        is_placeholder (w_fs w') "/dump/srv/a" "user.dbfs.generated" = true ∧
        is_placeholder (w_fs w') "/dump/srv/b" "user.dbfs.generated" = true.
Proof.
  split; [reflexivity |]. split; [reflexivity |].
  assert (Hne : (-1)%Z ≠ 0%Z) by lia.
  destruct (CreateDbfsFiles_custom_dir_failure_tolerated G false strerror "/"
              "customQueries" 493 0 Split (answers 0 catalog_ab) custom
              "/srv" "10.0.0.5" "sa" "secret" 15 (-1) no_folder
              with_root without_folder eq_refl eq_refl Hne)
    as (Hdir & _ & _ & _ & _ & Hcreate).
  split; [exact Hdir |].
  destruct (Hcreate catalog_ab "ColumnName" "a" ["b"]
              (put_stderr
                 ("mkdir failed for /dump/srv/customQueries- Permission denied" +:+ nl)
                 without_folder) eq_refl eq_refl eq_refl)
    as (w' & Hrun & _ & Hc & Hp).
  { intros n Hn. change (denied_at 1 n = None). unfold denied_at.
    destruct (Nat.eqb_spec n 1) as [-> | _]; [vm_compute in Hn; lia | reflexivity]. }
  { reflexivity. }
  exists w'. split; [exact Hrun |]. split; [exact Hc |].
  split; apply Hp.
  - left.
  - right. left.
Defined.

Example CreateDbfsFiles_without_custom_folder :
  returned (CreateDbfsFiles_on 15 no_folder) = true ∧
  creations (w_trace (final (CreateDbfsFiles_on 15 no_folder)))
  = ["/dump/srv/a"; "/dump/srv/b"] ∧
  kills (w_trace (final (CreateDbfsFiles_on 15 no_folder))) = 0%nat.
Proof. vm_compute. repeat split. Qed.

(** ** Where the code departs from four sentences of the specification *)

(** Against C1 as stated: one placeholder cannot be created, and the
    process is terminated, the loop left, the row b never attempted. *)
Lemma placeholder_failure_terminates_counterexample :
  returned (CreateDMVFiles_on false catalog_ab 15 refused) = false ∧
  kills (w_trace (final (CreateDMVFiles_on false catalog_ab 15 refused))) = 1%nat ∧
  attempts (w_trace (final (CreateDMVFiles_on false catalog_ab 15 refused)))
  = ["/dump/srv/a"].
Proof. vm_compute. repeat split. Qed.

(** Against C2 as stated: a result of the header row alone aborts the
    process when assertions are compiled in, and is passed over without a
    word on stderr (in verbose mode) when they are not. *)
Lemma header_only_result_counterexample :
  List.length (Split catalog_header_only LF) = 1%nat ∧
  CreateDMVFiles_on false catalog_header_only 15 (server_world no_fault SIG_CATCH)
  = Halt ByAbort
      (record EvAbort (put_stderr "Assertion failed: numEntries > 1"
                                  (server_world no_fault SIG_CATCH))) ∧
  g_InVerbose G = true ∧
  CreateDMVFiles_on true catalog_header_only 15 (server_world no_fault SIG_CATCH)
  = Ret tt (server_world no_fault SIG_CATCH).
Proof. repeat split. Qed.

(** Against C4 as stated: with a handler for SIGHUP, [KillSelf] returns,
    and [CreateFile] goes on to [setxattr] after the call. *)
Lemma KillSelf_returns_counterexample :
  returned (KillSelf (server_world no_fault SIG_CATCH)) = true ∧
  w_trace (final (CreateFile G strerror "/dump/srv/a"
                             (server_world (denied_at 0) SIG_CATCH)))
  = [EvFopen "/dump/srv/a" ModeWPlus false; EvKill;
     EvSetxattr "/dump/srv/a" "user.dbfs.generated" (-1); EvKill].
Proof. vm_compute. split; reflexivity. Qed.

(** Against C5 as stated: the server directory cannot be made (permission
    denied, not "already exists") and SIGHUP is ignored: [CreateDbfsFiles]
    sends the signal and returns to its caller; the process goes on. *)
Lemma root_failure_returns_counterexample :
  w_errno (snd (sys_mkdir "/dump/srv" 493 (world (denied_at 0) SIG_IGN))) = 13%Z ∧
  returned (CreateDbfsFiles_on 15 (world (denied_at 0) SIG_IGN)) = true ∧
  w_trace (final (CreateDbfsFiles_on 15 (world (denied_at 0) SIG_IGN)))
  = [EvMkdir "/dump/srv" 493 (-1); EvKill].
Proof. vm_compute. repeat split. Qed.
End Instances.

(** * Further properties of helper.cpp *)

(** ** Printing *)

Lemma sys_fopen_opened path mode w w' :
  sys_fopen path mode w = (true, w') ->
  fault_now w = None ∧ not_dir (w_fs w) path = true ∧
  w_errno w' = w_errno w ∧ w_stderr w' = w_stderr w ∧
  w_fs w' = <[path := match w_fs w !! path with
                      | Some n => match mode with
                                  | ModeWPlus => truncate n
                                  | ModeAppend => n
                                  end
                      | None => new_file
                      end]> (w_fs w) ∧
  w' = sys_done (EvFopen path mode true) (w_fs w') w.
Proof.
  unfold sys_fopen, not_dir. destruct (fault_now w); [discriminate |].
  destruct (w_fs w !! path) as [n|]; [destruct (i_dir n); [discriminate |] |];
    intros [= <-]; simpl; auto 10.
Qed.


(** X2. [PrintMsg] always returns, and all it may change is stderr, the log
    file and [errno]: it sends no signal, asks for no shutdown, attempts no
    placeholder creation and leaves every other path alone; when the program
    is not verbose it changes nothing at all. *)
Theorem PrintMsg_only_prints (G : Globals) (format : string) (args : list string)
    (w : World) :
  ∃ w', PrintMsg G format args w = Ret tt w' ∧
        kills (w_trace w') = kills (w_trace w) ∧
        attempts (w_trace w') = attempts (w_trace w) ∧
        w_shutdown w' = w_shutdown w ∧
        agree_outside [m_logfilePath (g_UserPaths G)] w w' ∧
        (g_InVerbose G = false -> w' = w).
Proof.
  exists (final (PrintMsg G format args w)).
  destruct (PrintMsg_frame G format args w) as (_ & _ & Ha & Hk & Hfs).
  split; [apply PrintMsg_returns |]. split; [exact Hk |]. split; [exact Ha |].
  split; [| split].
  - unfold PrintMsg. destruct (g_InVerbose G); [| reflexivity].
    destruct (g_UseLogFile G); [| reflexivity].
    unfold sys_fopen. destruct (fault_now w); [reflexivity |].
    destruct (w_fs w !! _) as [n|]; [destruct (i_dir n) |]; reflexivity.
  - intros q Hq. apply Hfs. intros ->. apply Hq. now left.
  - apply PrintMsg_quiet.
Qed.

Lemma append_assoc (s t u : string) : (s +:+ t) +:+ u = s +:+ t +:+ u.
Proof.
  induction s as [|c s IH]; [reflexivity |].
  change (String c ((s +:+ t) +:+ u) = String c (s +:+ t +:+ u)). now rewrite IH.
Qed.

(** One message written to the log file. *)
Lemma PrintMsg_to_log (G : Globals) (format : string) (args : list string)
    (w : World) :
  g_InVerbose G = true -> g_UseLogFile G = true ->
  fault_now w = None -> not_dir (w_fs w) (m_logfilePath (g_UserPaths G)) = true ->
  content (w_fs (final (PrintMsg G format args w))) (m_logfilePath (g_UserPaths G))
  = content (w_fs w) (m_logfilePath (g_UserPaths G)) +:+ StringFormat format args ∧
  not_dir (w_fs (final (PrintMsg G format args w))) (m_logfilePath (g_UserPaths G))
  = true ∧
  w_stderr (final (PrintMsg G format args w)) = w_stderr w ∧
  w_errno (final (PrintMsg G format args w)) = w_errno w ∧
  w_fault (final (PrintMsg G format args w)) = w_fault w ∧
  w_clock (final (PrintMsg G format args w)) = S (w_clock w).
Proof.
  intros Hv Hl Hf Hnd. unfold PrintMsg. rewrite Hv, Hl.
  unfold sys_fopen. rewrite Hf. unfold content, not_dir in *.
  destruct (w_fs w !! m_logfilePath (g_UserPaths G)) as [n|] eqn:E.
  - destruct (i_dir n) eqn:Hd; [discriminate |]. simpl.
    rewrite lookup_alter_eq, lookup_insert_eq. simpl. rewrite Hd.
    repeat split.
  - simpl. rewrite lookup_alter_eq, lookup_insert_eq. simpl. repeat split.
Qed.

(** X3. With a log file in use, messages are appended: for formats whose
    only directive is %s, each with its arguments, after two calls of
    [PrintMsg] the log file holds what it held before followed by the first
    and then the second message, a missing log file is created, and nothing
    is written to stderr. *)
Theorem PrintMsg_appends_to_log (G : Globals) (format1 format2 : string)
    (args1 args2 : list string) (w : World) :
  format_of_strings format1 args1 = true ->
  format_of_strings format2 args2 = true ->
  g_InVerbose G = true -> g_UseLogFile G = true ->
  fault_free w -> not_dir (w_fs w) (m_logfilePath (g_UserPaths G)) = true ->
  ∃ w', (PrintMsg G format1 args1 ;; PrintMsg G format2 args2) w = Ret tt w' ∧
        content (w_fs w') (m_logfilePath (g_UserPaths G))
        = content (w_fs w) (m_logfilePath (g_UserPaths G))
          +:+ StringFormat format1 args1 +:+ StringFormat format2 args2 ∧
        w_stderr w' = w_stderr w.
Proof.
  intros _ _ Hv Hl Hff Hnd.
  destruct (PrintMsg_to_log G format1 args1 w Hv Hl (fault_free_now w Hff) Hnd)
    as (Hc1 & Hnd1 & He1 & _ & Hf1 & Hk1).
  set (w1 := final (PrintMsg G format1 args1 w)) in *.
  assert (Hff1 : fault_free w1)
    by (apply (fault_free_later w); [exact Hff | exact Hf1 | lia]).
  destruct (PrintMsg_to_log G format2 args2 w1 Hv Hl (fault_free_now w1 Hff1) Hnd1)
    as (Hc2 & _ & He2 & _).
  exists (final (PrintMsg G format2 args2 w1)).
  split; [rewrite PrintMsg_bind; apply PrintMsg_returns |].
  split; [| congruence].
  rewrite Hc2, Hc1. apply append_assoc.
Qed.

(** X4. With a log file in use that cannot be opened, the message is lost:
    [PrintMsg] returns without writing it anywhere, file system and stderr
    are as before, and [errno] is now that of the failed [fopen]. *)
Theorem PrintMsg_loses_message (G : Globals) (format : string) (args : list string)
    (e : Z) (w : World) :
  g_InVerbose G = true -> g_UseLogFile G = true -> fault_now w = Some e ->
  ∃ w', PrintMsg G format args w = Ret tt w' ∧
        w_fs w' = w_fs w ∧ w_stderr w' = w_stderr w ∧ w_errno w' = e.
Proof.
  intros Hv Hl Hf. unfold PrintMsg. rewrite Hv, Hl.
  unfold sys_fopen. rewrite Hf. eexists. split; [reflexivity |]. auto.
Qed.

(** ** The registry *)

(** X5. [GetServerDetails] and [GetServerInfo] agree on which servers
    exist. Where [GetServerInfo] finds a record, [GetServerDetails] returns
    its host name, user name and password, whatever was in the three strings
    before, and leaves the world as it was; where [GetServerInfo] returns
    NULL, [GetServerDetails] sends SIGHUP, once. *)
Theorem GetServerDetails_agrees_with_GetServerInfo (G : Globals)
    (servername : string) (out : Details) (w : World) :
  match GetServerInfo G servername with
  | Some serverInfo =>
      GetServerDetails G servername out w
      = Ret (mkDetails (m_hostname serverInfo) (m_username serverInfo)
                       (m_password serverInfo)) w
  | None =>
      kills (w_trace (final (GetServerDetails G servername out w)))
      = S (kills (w_trace w))
  end.
Proof.
  unfold GetServerInfo, GetServerDetails.
  destruct (g_ServerInfoMap G !! servername); [reflexivity |].
  rewrite PrintMsg_bind, final_bind_ret.
  destruct (KillSelf_frame (final (PrintMsg G ("Unknown server %s" +:+ nl)
                                            [servername] w))) as (_ & _ & ->).
  now destruct (PrintMsg_frame G ("Unknown server %s" +:+ nl) [servername] w)
    as (_ & _ & _ & -> & _).
Qed.

(** X6. A custom query path is reported only for a registered server: when
    [GetUserCustomQueryPath] returns a string that is not empty, it is the
    path of the record of that server, and [GetServerDetails] for the same
    name returns without escalation. *)
Theorem GetUserCustomQueryPath_nonempty (G : Globals) (servername : string)
    (out : Details) (w : World) :
  GetUserCustomQueryPath G servername ≠ EmptyString ->
  ∃ serverInfo,
    GetServerInfo G servername = Some serverInfo ∧
    GetUserCustomQueryPath G servername = m_customQueriesPath serverInfo ∧
    GetServerDetails G servername out w
    = Ret (mkDetails (m_hostname serverInfo) (m_username serverInfo)
                     (m_password serverInfo)) w.
Proof.
  unfold GetUserCustomQueryPath, GetServerDetails, GetServerInfo.
  destruct (g_ServerInfoMap G !! servername) as [serverInfo|]; [| congruence].
  intros _. exists serverInfo. auto.
Qed.

(** ** Relations that a run keeps *)

Lemma keeps_ret {A} (R : World -> World -> Prop) (a : A) :
  (∀ w, R w w) -> keeps R (ret a).
Proof. intros Hrefl w. apply Hrefl. Qed.

Lemma keeps_bind {A B} (R : World -> World -> Prop) (m : M A) (k : A -> M B) :
  (∀ w1 w2 w3, R w1 w2 -> R w2 w3 -> R w1 w3) ->
  keeps R m -> (∀ a, keeps R (k a)) -> keeps R (bind m k).
Proof.
  intros Htrans Hm Hk w. unfold bind. specialize (Hm w).
  destruct (m w) as [a w1|h w1]; simpl in *; [| exact Hm].
  apply (Htrans w w1); [exact Hm | apply Hk].
Qed.

Lemma keeps_for_each (R : World -> World -> Prop) (l : list nat)
    (body : nat -> M unit) :
  (∀ w, R w w) -> (∀ w1 w2 w3, R w1 w2 -> R w2 w3 -> R w1 w3) ->
  (∀ i, i ∈ l -> keeps R (body i)) -> keeps R (for_each l body).
Proof.
  intros Hrefl Htrans. induction l as [|i l IH]; intros Hbody.
  - now apply keeps_ret.
  - simpl. apply keeps_bind; [exact Htrans | apply Hbody; now left |].
    intros _. apply IH. intros j Hj. apply Hbody. now right.
Qed.

Lemma agree_outside_refl paths w : agree_outside paths w w.
Proof. now intros q _. Qed.

Lemma agree_outside_trans paths w1 w2 w3 :
  agree_outside paths w1 w2 -> agree_outside paths w2 w3 ->
  agree_outside paths w1 w3.
Proof. intros H12 H23 q Hq. now rewrite H23, H12. Qed.

Lemma agree_outside_weaken paths paths' w w' :
  (∀ q, q ∈ paths -> q ∈ paths') ->
  agree_outside paths w w' -> agree_outside paths' w w'.
Proof. intros Hsub H q Hq. apply H. intros Hin. apply Hq, Hsub, Hin. Qed.

Lemma sys_fopen_agree path mode w :
  agree_outside [path] w (snd (sys_fopen path mode w)).
Proof.
  intros q Hq. assert (path ≠ q) by (intros ->; apply Hq; now left).
  unfold sys_fopen. destruct (fault_now w); [reflexivity |].
  destruct (w_fs w !! path) as [n|]; [destruct (i_dir n) |]; simpl;
    rewrite ?lookup_insert_ne by assumption; reflexivity.
Qed.

Lemma sys_setxattr_agree path name value size w :
  agree_outside [path] w (snd (sys_setxattr path name value size w)).
Proof.
  intros q Hq. assert (path ≠ q) by (intros ->; apply Hq; now left).
  unfold sys_setxattr. destruct (fault_now w); [reflexivity |].
  destruct (w_fs w !! path) as [n|]; simpl;
    rewrite ?lookup_insert_ne by assumption; reflexivity.
Qed.

Lemma keeps_lift {A} (R : World -> World -> Prop) (f : World -> A * World) :
  (∀ w, R w (snd (f w))) -> keeps R (lift f).
Proof. intros H w. unfold lift. specialize (H w). now destruct (f w). Qed.

Lemma PrintMsg_agree G format args :
  keeps (agree_outside [m_logfilePath (g_UserPaths G)]) (PrintMsg G format args).
Proof.
  intros w q Hq.
  destruct (PrintMsg_frame G format args w) as (_ & _ & _ & _ & H).
  apply H. intros ->. apply Hq. now left.
Qed.

Lemma KillSelf_agree paths : keeps (agree_outside paths) KillSelf.
Proof. intros w q _. now destruct (KillSelf_frame w) as (-> & _). Qed.

Lemma get_errno_bind {B} (k : Z -> M B) (w : World) :
  bind get_errno k w = k (w_errno w) w.
Proof. reflexivity. Qed.

(** The two reports of [CreateFile], each followed by [KillSelf]. *)
Lemma report_agree G (strerror : Z -> string) format path paths :
  path ∈ paths -> m_logfilePath (g_UserPaths G) ∈ paths ->
  keeps (agree_outside paths)
        (e <- get_errno ;; PrintMsg G format [path; strerror e] ;; KillSelf).
Proof.
  intros Hp Hl w. rewrite get_errno_bind.
  apply keeps_bind; [apply agree_outside_trans | | intros _; apply KillSelf_agree].
  intros w0. apply (agree_outside_weaken [m_logfilePath (g_UserPaths G)]);
    [| apply PrintMsg_agree].
  intros q Hq. apply list_elem_of_singleton in Hq as ->. exact Hl.
Qed.

(** ** CreateFile *)

Lemma CreateFile_agree (G : Globals) (strerror : Z -> string) (path : string) :
  keeps (agree_outside [path; m_logfilePath (g_UserPaths G)])
        (CreateFile G strerror path).
Proof.
  assert (Hw : ∀ q, q ∈ [path] -> q ∈ [path; m_logfilePath (g_UserPaths G)])
    by (intros q Hq; apply list_elem_of_singleton in Hq as ->; now left).
  unfold CreateFile.
  apply keeps_bind; [apply agree_outside_trans | |].
  { apply keeps_lift. intros w. eapply agree_outside_weaken; [exact Hw |].
    apply sys_fopen_agree. }
  intros fp. apply keeps_bind; [apply agree_outside_trans | |].
  { destruct fp; simpl; [apply keeps_ret, agree_outside_refl |].
    apply report_agree; [now left | right; now left]. }
  intros _. apply keeps_bind; [apply agree_outside_trans | |].
  { apply keeps_lift. intros w. eapply agree_outside_weaken; [exact Hw |].
    apply sys_setxattr_agree. }
  intros status. destruct (status =? 0)%Z; simpl;
    [apply keeps_ret, agree_outside_refl |].
  apply report_agree; [now left | right; now left].
Qed.

(** X7. Whatever happens in it, [CreateFile] changes no path of the file
    system other than the one it was given and the log file. *)
Theorem CreateFile_touches_only_its_path (G : Globals) (strerror : Z -> string)
    (path : string) (w : World) :
  agree_outside [path; m_logfilePath (g_UserPaths G)] w
                (final (CreateFile G strerror path w)).
Proof. apply CreateFile_agree. Qed.

Lemma IsDbfsFile_answer (G : Globals) (path : string) (w : World) :
  fault_now w = None ->
  ∃ w', IsDbfsFile G path w
        = Ret (has_xattr (w_fs w) (CalculateDumpPath G path)
                         (g_LocallyGeneratedFiles G)) w'.
Proof.
  intros Hf. unfold IsDbfsFile, bind, lift, ret, sys_getxattr, has_xattr.
  rewrite Hf. destruct (w_fs w !! CalculateDumpPath G path) as [n|];
    [| eexists; reflexivity].
  destruct (i_xattr n !! g_LocallyGeneratedFiles G) as [v|] eqn:E.
  - rewrite bool_decide_eq_true_2 by eauto.
    destruct (0 <=? Z.of_nat (String.length v))%Z eqn:L;
      [| apply Z.leb_gt in L; lia].
    eexists. reflexivity.
  - rewrite bool_decide_eq_false_2 by (intros [v Hv]; congruence).
    eexists. reflexivity.
Qed.

Lemma is_placeholder_has_xattr fs path name :
  is_placeholder fs path name = true -> has_xattr fs path name = true.
Proof.
  unfold is_placeholder, has_xattr. destruct (fs !! path) as [n|]; [| discriminate].
  intros H. apply andb_true_iff in H as [_ H%bool_decide_eq_true].
  apply bool_decide_eq_true. eauto.
Qed.

(** X8. What [CreateFile] creates, [IsDbfsFile] recognises: when the system
    calls succeed, a placeholder created at the dump path of P makes
    [IsDbfsFile] answer true for P right afterwards. *)
Theorem CreateFile_then_IsDbfsFile (G : Globals) (strerror : Z -> string)
    (P : string) (w : World) :
  fault_free w -> not_dir (w_fs w) (CalculateDumpPath G P) = true ->
  ∃ w' w'', CreateFile G strerror (CalculateDumpPath G P) w = Ret tt w' ∧
            IsDbfsFile G P w' = Ret true w''.
Proof.
  intros Hff Hnd.
  exists (touch (g_LocallyGeneratedFiles G) (CalculateDumpPath G P) w).
  destruct (IsDbfsFile_answer G P
              (touch (g_LocallyGeneratedFiles G) (CalculateDumpPath G P) w))
    as (w'' & Hq).
  { apply fault_free_now, touch_fault_free, Hff. }
  exists w''. split; [now apply CreateFile_ok |].
  rewrite Hq. f_equal.
  apply is_placeholder_has_xattr, touch_placeholder.
Qed.

(** X9. [CreateFile] truncates and can be repeated: when the system calls
    succeed, the path holds afterwards an empty regular file carrying the
    provenance attribute with an empty value; the other extended attributes
    of a file that was there before are kept; and a second [CreateFile] on
    the same path succeeds as well and leaves the file system as the first
    one left it. *)
Theorem CreateFile_truncates_and_repeats (G : Globals) (strerror : Z -> string)
    (path : string) (w : World) :
  fault_free w -> not_dir (w_fs w) path = true ->
  ∃ w1 w2 n1,
    CreateFile G strerror path w = Ret tt w1 ∧
    w_fs w1 !! path = Some n1 ∧ i_dir n1 = false ∧ i_data n1 = EmptyString ∧
    i_xattr n1 !! g_LocallyGeneratedFiles G = Some EmptyString ∧
    (∀ n0 a, w_fs w !! path = Some n0 -> a ≠ g_LocallyGeneratedFiles G ->
             i_xattr n1 !! a = i_xattr n0 !! a) ∧
    CreateFile G strerror path w1 = Ret tt w2 ∧
    w_fs w2 = w_fs w1.
Proof.
  intros Hff Hnd.
  set (name := g_LocallyGeneratedFiles G).
  exists (touch name path w), (touch name path (touch name path w)),
         (placeholder_of name (w_fs w !! path)).
  split; [now apply CreateFile_ok |].
  split; [simpl; apply lookup_insert_eq |].
  split; [now destruct (w_fs w !! path) |].
  split; [now destruct (w_fs w !! path) |].
  split; [destruct (w_fs w !! path); simpl; apply lookup_insert_eq |].
  split.
  { intros n0 a -> Ha. simpl. now rewrite lookup_insert_ne. }
  split.
  { apply CreateFile_ok; [now apply touch_fault_free | now apply touch_not_dir]. }
  simpl. rewrite lookup_insert_eq, insert_insert_eq. f_equal.
  unfold placeholder_of at 1. unfold set_attr, truncate. simpl. f_equal.
  destruct (w_fs w !! path); simpl; now rewrite insert_insert_eq.
Qed.

Lemma sys_setxattr_failed path name value size w r w' :
  sys_setxattr path name value size w = (r, w') -> r ≠ 0%Z ->
  w_stderr w' = w_stderr w ∧ w_fs w' = w_fs w ∧ w_sighup w' = w_sighup w ∧
  w_trace w' = (w_trace w ++ [EvSetxattr path name (-1)])%list.
Proof.
  unfold sys_setxattr. destruct (fault_now w); [now intros [= <- <-] |].
  destruct (w_fs w !! path) as [n|]; intros [= <- <-]; [congruence | auto].
Qed.

Lemma sys_setxattr_done path name value size w w' :
  sys_setxattr path name value size w = (0%Z, w') ->
  fault_now w = None ∧
  ∃ n, w_fs w !! path = Some n ∧
       w' = sys_done (EvSetxattr path name 0)
                     (<[path := set_attr name (substring 0 size value) n]> (w_fs w)) w.
Proof.
  unfold sys_setxattr. destruct (fault_now w); [discriminate |].
  destruct (w_fs w !! path) as [n|]; [| discriminate].
  intros [= <-]. eauto.
Qed.

Lemma CreateFile_tag_failed G strerror path w r w' :
  sys_setxattr path (g_LocallyGeneratedFiles G) "1" 0 w = (r, w') -> r ≠ 0%Z ->
  CreateFile_tag G strerror path w
  = KillSelf (final (PrintMsg G
                       ("Error setting extended attributes for file %s : %s" +:+ nl)
                       [path; strerror (w_errno w')] w')).
Proof.
  intros H Hr. unfold CreateFile_tag. unfold bind at 1, lift. rewrite H.
  cbv beta iota. destruct (r =? 0)%Z eqn:E; [apply Z.eqb_eq in E; congruence |].
  change (negb false) with true. cbv iota.
  rewrite get_errno_bind. now rewrite PrintMsg_bind.
Qed.

Lemma CreateFile_open_opened G strerror path w w' :
  sys_fopen path ModeWPlus w = (true, w') ->
  CreateFile_open G strerror path w = Ret tt w'.
Proof.
  intros H. unfold CreateFile_open. unfold bind at 1, lift. now rewrite H.
Qed.

(** X10. When the file was created but the provenance attribute cannot be
    set, [CreateFile] reports "Error setting extended attributes for file
    <path> : <reason>" and calls [KillSelf]: SIGHUP is sent once, and under
    the default action the process ends there, with the file left behind
    created. *)
Theorem CreateFile_tagging_failure (G : Globals) (strerror : Z -> string)
    (path : string) (r : Z) (w w1 w2 : World) :
  sys_fopen path ModeWPlus w = (true, w1) ->
  sys_setxattr path (g_LocallyGeneratedFiles G) "1" 0 w1 = (r, w2) -> r ≠ 0%Z ->
  let w3 := final (PrintMsg G
                     ("Error setting extended attributes for file %s : %s" +:+ nl)
                     [path; strerror (w_errno w2)] w2) in
  CreateFile G strerror path w = KillSelf w3 ∧
  (g_InVerbose G = true -> g_UseLogFile G = false ->
   w_stderr w3
   = (w_stderr w ++ ["Error setting extended attributes for file " +:+ path
                     +:+ " : " +:+ strerror (w_errno w2) +:+ nl])%list) ∧
  kills (w_trace (final (CreateFile G strerror path w))) = S (kills (w_trace w)) ∧
  creations (w_trace (final (CreateFile G strerror path w)))
  = (creations (w_trace w) ++ [path])%list ∧
  (w_sighup w = SIG_DFL ->
   CreateFile G strerror path w = Halt BySighup (record EvKill w3)).
Proof.
  intros Ho Hx Hr w3.
  assert (Hrun : CreateFile G strerror path w = KillSelf w3).
  { rewrite CreateFile_halves. unfold bind at 1.
    rewrite (CreateFile_open_opened _ _ _ _ _ Ho).
    now apply CreateFile_tag_failed with r. }
  pose proof (sys_fopen_extends path ModeWPlus w) as (Ht1 & Hs1 & _).
  rewrite Ho in Ht1, Hs1. simpl in Ht1, Hs1.
  destruct (sys_fopen_opened _ _ _ _ Ho) as (_ & _ & _ & He1 & _).
  destruct (sys_setxattr_failed _ _ _ _ _ _ _ Hx Hr) as (He2 & _ & Hs2 & Ht2).
  destruct (PrintMsg_frame G
              ("Error setting extended attributes for file %s : %s" +:+ nl)
              [path; strerror (w_errno w2)] w2) as (Hs3 & _ & _ & Hk3 & _).
  fold w3 in Hs3, Hk3.
  split; [exact Hrun |]. rewrite Hrun.
  split; [| split; [| split]].
  - intros Hv Hl. subst w3. rewrite PrintMsg_stderr by assumption.
    simpl. now rewrite He2, He1.
  - destruct (KillSelf_frame w3) as (_ & _ & ->).
    rewrite Hk3, Ht2, kills_app, Ht1, kills_app.
    change (kills [_]) with 0%nat. change (kills [_]) with 0%nat. lia.
  - rewrite KillSelf_trace, creations_app.
    assert (Hc3 : creations (w_trace w3) = creations (w_trace w2)).
    { subst w3. unfold PrintMsg. destruct (g_InVerbose G); [| reflexivity].
      destruct (g_UseLogFile G); [| reflexivity].
      unfold sys_fopen. destruct (fault_now w2); simpl.
      { rewrite creations_app. simpl. now rewrite app_nil_r. }
      destruct (w_fs w2 !! _) as [n|]; [destruct (i_dir n) |]; simpl;
        rewrite creations_app; simpl; now rewrite app_nil_r. }
    rewrite Hc3, Ht2, creations_app, Ht1, creations_app. simpl.
    now rewrite !app_nil_r.
  - intros Hd. apply KillSelf_default. congruence.
Qed.

Lemma CreateFile_open_default G strerror path w w' :
  w_sighup w = SIG_DFL -> CreateFile_open G strerror path w = Ret tt w' ->
  sys_fopen path ModeWPlus w = (true, w').
Proof.
  intros Hd. destruct (sys_fopen path ModeWPlus w) as [[] w1] eqn:E.
  - rewrite (CreateFile_open_opened _ _ _ _ _ E). now intros [= ->].
  - rewrite (CreateFile_open_failed _ _ _ _ _ E).
    destruct (sys_fopen_failed _ _ _ _ E) as (_ & _ & Hs & _).
    destruct (PrintMsg_frame G ("Error creating file %s %s" +:+ nl)
                [path; strerror (w_errno w1)] w1) as (Hs' & _).
    rewrite KillSelf_default by congruence. discriminate.
Qed.

Lemma CreateFile_tag_default G strerror path w w' :
  w_sighup w = SIG_DFL -> CreateFile_tag G strerror path w = Ret tt w' ->
  sys_setxattr path (g_LocallyGeneratedFiles G) "1" 0 w = (0%Z, w').
Proof.
  intros Hd.
  destruct (sys_setxattr path (g_LocallyGeneratedFiles G) "1" 0 w) as [r w1] eqn:E.
  destruct (decide (r = 0%Z)) as [-> | Hr].
  - unfold CreateFile_tag. unfold bind at 1, lift. rewrite E. now intros [= ->].
  - rewrite (CreateFile_tag_failed _ _ _ _ _ _ E Hr).
    destruct (sys_setxattr_failed _ _ _ _ _ _ _ E Hr) as (_ & _ & Hs & _).
    destruct (PrintMsg_frame G
                ("Error setting extended attributes for file %s : %s" +:+ nl)
                [path; strerror (w_errno w1)] w1) as (Hs' & _).
    rewrite KillSelf_default by congruence. discriminate.
Qed.

(** Under the default action of SIGHUP, a [CreateFile] that returns has
    succeeded in both system calls. *)
Lemma CreateFile_default_returned G strerror path w w' :
  w_sighup w = SIG_DFL -> CreateFile G strerror path w = Ret tt w' ->
  w' = touch (g_LocallyGeneratedFiles G) path w.
Proof.
  intros Hd. rewrite CreateFile_halves. unfold bind at 1.
  destruct (CreateFile_open G strerror path w) as [[] w1|h w1] eqn:Eo;
    [| discriminate].
  apply CreateFile_open_default in Eo; [| exact Hd].
  intros Et. apply CreateFile_tag_default in Et.
  2:{ pose proof (sys_fopen_extends path ModeWPlus w) as (_ & Hs & _).
      rewrite Eo in Hs. simpl in Hs. congruence. }
  destruct (sys_fopen_opened _ _ _ _ Eo) as (_ & _ & _ & _ & Hfs & Hw1).
  rewrite Hfs in Hw1. clear Hfs. subst w1.
  destruct (sys_setxattr_done _ _ _ _ _ _ Et) as (_ & n & Hn & ->).
  simpl in Hn. rewrite lookup_insert_eq in Hn. injection Hn as <-.
  unfold touch, sys_done, tick, record, set_fs. simpl.
  rewrite insert_insert_eq, <- app_assoc. unfold placeholder_of. reflexivity.
Qed.

(** X11. Under the default action of SIGHUP, [CreateFile] returns to its
    caller only when it has done all of its work: whenever it returns, the
    path holds an empty regular file carrying the provenance attribute, no
    signal was sent and nothing was printed. *)
Theorem CreateFile_default_all_or_nothing (G : Globals) (strerror : Z -> string)
    (path : string) (w w' : World) :
  w_sighup w = SIG_DFL -> CreateFile G strerror path w = Ret tt w' ->
  is_placeholder (w_fs w') path (g_LocallyGeneratedFiles G) = true ∧
  creations (w_trace w') = (creations (w_trace w) ++ [path])%list ∧
  kills (w_trace w') = kills (w_trace w) ∧
  w_stderr w' = w_stderr w.
Proof.
  intros Hd Hr. rewrite (CreateFile_default_returned _ _ _ _ _ Hd Hr).
  split; [apply touch_placeholder |]. simpl.
  rewrite creations_app, kills_app. simpl. auto with lia.
Qed.

(** ** CreateDMVFiles, whatever the catalog answers *)

Lemma loop_index_in_range (filenames : list string) (i : nat) :
  i ∈ seq 0 (Z.to_nat (to_int (Z.of_nat (List.length filenames)))) ->
  (i < List.length filenames)%nat.
Proof.
  intros Hi. apply list_elem_of_In, in_seq in Hi.
  assert (Hle : (to_int (Z.of_nat (List.length filenames))
                 <= Z.of_nat (List.length filenames))%Z).
  { unfold to_int.
    pose proof (Z.mod_le (Z.of_nat (List.length filenames) + 2 ^ 31) (2 ^ 32)).
    lia. }
  lia.
Qed.

(** X12. The loop of [CreateDMVFiles] stays inside the vector: every index it
    visits is an index of [filenames], also when the number of rows does not
    fit an [int], so that [filenames[i]] is always one of the rows. *)
Theorem CreateDMVFiles_loop_within_bounds (filenames : list string) (i : nat) :
  i ∈ seq 0 (Z.to_nat (to_int (Z.of_nat (List.length filenames)))) ->
  (i < List.length filenames)%nat ∧ nth i filenames EmptyString ∈ filenames.
Proof.
  intros Hi. apply loop_index_in_range in Hi.
  split; [exact Hi |]. apply list_elem_of_In, nth_In, Hi.
Qed.

Section Catalog.
Variables (G : Globals) (NDEBUG : bool) (strerror : Z -> string) (TYPE_TSV : Z).
Variable Split : string -> ascii -> list string.
Variable ExecuteQuery : string -> string -> string -> string -> Z -> M (Z * string).
Variables (dumpDir servername hostname username password : string) (version : Z).

Local Abbreviation DMV :=
  (CreateDMVFiles G NDEBUG strerror TYPE_TSV Split ExecuteQuery
                  dumpDir servername hostname username password version).
Local Abbreviation query :=
  (ExecuteQuery dmvQuery hostname username password TYPE_TSV).
Local Abbreviation attribute := (g_LocallyGeneratedFiles G).

(** X13. A catalog query that fails is not fatal: [CreateDMVFiles] prints
    "Failed to query DMV list" and returns; the response is not looked at,
    no placeholder creation is attempted and no signal is sent. *)
Theorem CreateDMVFiles_query_failure (error : Z) (response : string)
    (w w1 : World) :
  query w = Ret (error, response) w1 -> error ≠ 0%Z ->
  let w2 := final (PrintMsg G ("Failed to query DMV list" +:+ nl) [] w1) in
  DMV w = Ret tt w2 ∧
  (g_InVerbose G = true -> g_UseLogFile G = false ->
   w_stderr w2 = (w_stderr w1 ++ ["Failed to query DMV list" +:+ nl])%list) ∧
  attempts (w_trace w2) = attempts (w_trace w1) ∧
  kills (w_trace w2) = kills (w_trace w1).
Proof.
  intros Hq He w2.
  destruct (PrintMsg_frame G ("Failed to query DMV list" +:+ nl) [] w1)
    as (_ & _ & Ha & Hk & _).
  split; [| split; [| split; assumption]].
  - unfold CreateDMVFiles. unfold bind at 1. rewrite Hq. cbv beta iota.
    destruct (error =? 0)%Z eqn:E; [apply Z.eqb_eq in E; congruence |].
    apply PrintMsg_returns.
  - intros Hv Hl. subst w2. now rewrite PrintMsg_stderr.
Qed.

(** X14. One placeholder per data row, whatever the rows: after a successful
    query whose result has a header and at least one more row, and with
    every system call succeeding, [CreateDMVFiles] returns having created,
    in the order of the rows, the file of each data row and, from version 16
    on, its .json sibling right after it; nothing else is created, nothing
    is printed, no signal is sent, and each of the files is an empty file
    carrying the provenance attribute. *)
Theorem CreateDMVFiles_creates_every_row (response header name : string)
    (rest : list string) (w w1 : World) :
  query w = Ret (0%Z, response) w1 ->
  Split response LF = header :: name :: rest ->
  (Z.of_nat (List.length (header :: name :: rest)) < 2 ^ 31)%Z ->
  fault_free w1 ->
  forallb (not_dir (w_fs w1)) (dmv_paths dumpDir version (name :: rest)) = true ->
  ∃ w', DMV w = Ret tt w' ∧
        creations (w_trace w')
        = (creations (w_trace w1) ++ dmv_paths dumpDir version (name :: rest))%list ∧
        attempts (w_trace w') = (attempts (w_trace w1)
                                 ++ dmv_paths dumpDir version (name :: rest))%list ∧
        List.length (dmv_paths dumpDir version (name :: rest))
        = ((if (16 <=? version)%Z then 2 else 1) * List.length (name :: rest))%nat ∧
        dom (w_fs w') = dom (w_fs w1)
                        ∪ list_to_set (dmv_paths dumpDir version (name :: rest)) ∧
        (∀ p, p ∈ dmv_paths dumpDir version (name :: rest) ->
              is_placeholder (w_fs w') p attribute = true) ∧
        kills (w_trace w') = kills (w_trace w1) ∧
        w_stderr w' = w_stderr w1.
Proof.
  intros Hq Hs Hlen Hff Hnd.
  set (paths := dmv_paths dumpDir version (name :: rest)) in *.
  exists (touch_all attribute paths w1).
  destruct (touch_all_trace attribute paths w1) as (Ha & Hc & Hk & He & _).
  split.
  { rewrite (CreateDMVFiles_rows G NDEBUG strerror TYPE_TSV Split ExecuteQuery
               dumpDir servername hostname username password version
               response header name rest w w1 Hq Hs Hlen).
    apply create_items_ok; [exact Hff |].
    intros p Hp. apply (proj1 (forallb_forall _ _) Hnd). now apply list_elem_of_In. }
  split; [exact Hc |]. split; [exact Ha |].
  split.
  { subst paths. unfold dmv_paths. generalize (name :: rest). intros l.
    induction l as [|x l IH]; [simpl; lia |].
    change (flat_map ?f (x :: l)) with (f x ++ flat_map f l)%list.
    rewrite length_app, IH. destruct (16 <=? version)%Z; simpl List.length; lia. }
  split; [apply touch_all_dom |].
  split; [intros p Hp; now apply touch_all_placeholders |].
  split; assumption.
Qed.

(** X15. With SIGHUP caught or ignored, the loop goes through: after a
    successful query whose result has a header and at least one more row,
    [CreateDMVFiles] returns whatever fails on the way, and the creation of
    every placeholder of every data row was attempted, in order. *)
Theorem CreateDMVFiles_attempts_every_row (response header name : string)
    (rest : list string) (w w1 : World) :
  query w = Ret (0%Z, response) w1 ->
  Split response LF = header :: name :: rest ->
  (Z.of_nat (List.length (header :: name :: rest)) < 2 ^ 31)%Z ->
  w_sighup w1 ≠ SIG_DFL ->
  ∃ w', DMV w = Ret tt w' ∧
        attempts (w_trace w')
        = (attempts (w_trace w1) ++ dmv_paths dumpDir version (name :: rest))%list.
Proof.
  intros Hq Hs Hlen Hd.
  destruct (create_items_all_attempted G strerror dumpDir version (name :: rest)
              w1 Hd) as (w' & Hrun & _ & Ha).
  exists w'. split; [| exact Ha].
  now rewrite (CreateDMVFiles_rows G NDEBUG strerror TYPE_TSV Split ExecuteQuery
                 dumpDir servername hostname username password version
                 response header name rest w w1 Hq Hs Hlen).
Qed.

Lemma create_items_default_returned (items : list string) (w w' : World) :
  w_sighup w = SIG_DFL ->
  create_items G strerror dumpDir version items w = Ret tt w' ->
  w' = touch_all attribute (dmv_paths dumpDir version items) w.
Proof.
  revert w. induction items as [|name rest IH]; intros w Hd.
  - now intros [= <-].
  - simpl. unfold bind at 1 2.
    destruct (CreateFile G strerror (dumpDir +:+ "/" +:+ name) w)
      as [[] wa|h wa] eqn:Ea; [| discriminate].
    apply CreateFile_default_returned in Ea; [| exact Hd]. subst wa.
    destruct (16 <=? version)%Z.
    + destruct (CreateFile G strerror ((dumpDir +:+ "/" +:+ name) +:+ ".json") _)
        as [[] wb|h wb] eqn:Eb; [| discriminate].
      apply CreateFile_default_returned in Eb; [| exact Hd]. subst wb.
      intros Hr. apply IH in Hr; [exact Hr | exact Hd].
    + unfold ret at 1. intros Hr. apply IH in Hr; [exact Hr | exact Hd].
Qed.

(** X16. Under the default action of SIGHUP, [CreateDMVFiles] returns from
    the loop only with the whole catalog materialised: if it returns after a
    successful query whose result has a header and at least one more row,
    then every file of every data row is an empty file carrying the
    provenance attribute, and no signal was sent. *)
Theorem CreateDMVFiles_default_all_or_nothing (response header name : string)
    (rest : list string) (w w1 w' : World) :
  query w = Ret (0%Z, response) w1 ->
  Split response LF = header :: name :: rest ->
  (Z.of_nat (List.length (header :: name :: rest)) < 2 ^ 31)%Z ->
  w_sighup w1 = SIG_DFL ->
  DMV w = Ret tt w' ->
  (∀ p, p ∈ dmv_paths dumpDir version (name :: rest) ->
        is_placeholder (w_fs w') p attribute = true) ∧
  creations (w_trace w')
  = (creations (w_trace w1) ++ dmv_paths dumpDir version (name :: rest))%list ∧
  kills (w_trace w') = kills (w_trace w1).
Proof.
  intros Hq Hs Hlen Hd.
  rewrite (CreateDMVFiles_rows G NDEBUG strerror TYPE_TSV Split ExecuteQuery
             dumpDir servername hostname username password version
             response header name rest w w1 Hq Hs Hlen).
  intros Hr. apply create_items_default_returned in Hr; [| exact Hd]. subst w'.
  destruct (touch_all_trace attribute (dmv_paths dumpDir version (name :: rest)) w1)
    as (_ & Hc & Hk & _).
  split; [intros p Hp; now apply touch_all_placeholders |]. split; assumption.
Qed.

Lemma assert_agree paths expr cond :
  keeps (agree_outside paths) (assert NDEBUG expr cond).
Proof.
  intros w. unfold assert. destruct (NDEBUG || cond); simpl;
    intros q _; reflexivity.
Qed.

Lemma CreateDMVFiles_body_agree (filenames : list string) (i : nat) :
  nth i filenames EmptyString ∈ filenames ->
  keeps (agree_outside (dmv_targets G dumpDir filenames))
        (CreateDMVFiles_body G strerror dumpDir filenames version i).
Proof.
  intros Hin. unfold CreateDMVFiles_body.
  destruct (i =? 0)%nat; [apply keeps_ret, agree_outside_refl |].
  rewrite StringFormat_path, StringFormat_json.
  set (name := nth i filenames EmptyString) in *.
  assert (Hflat : ∀ q, q ∈ [dumpDir +:+ "/" +:+ name;
                            (dumpDir +:+ "/" +:+ name) +:+ ".json"] ->
                       q ∈ dmv_targets G dumpDir filenames).
  { intros q Hq. unfold dmv_targets. right.
    apply list_elem_of_In, in_flat_map. exists name.
    split; now apply list_elem_of_In. }
  apply keeps_bind; [apply agree_outside_trans | |].
  - intros w. eapply agree_outside_weaken; [| apply CreateFile_agree].
    intros q Hq. apply elem_of_cons in Hq as [-> | Hq].
    + apply Hflat. now left.
    + apply list_elem_of_singleton in Hq as ->. now left.
  - intros _. destruct (16 <=? version)%Z; [| apply keeps_ret, agree_outside_refl].
    intros w. eapply agree_outside_weaken; [| apply CreateFile_agree].
    intros q Hq. apply elem_of_cons in Hq as [-> | Hq].
    + apply Hflat. right. now left.
    + apply list_elem_of_singleton in Hq as ->. now left.
Qed.

(** X17. Whatever the catalog answers and whatever fails, [CreateDMVFiles]
    changes no path of the file system other than the log file and, for the
    rows of the response, the file of the row in the server directory and
    its .json sibling. *)
Theorem CreateDMVFiles_touches_only_its_rows (error : Z) (response : string)
    (w w1 : World) :
  query w = Ret (error, response) w1 ->
  agree_outside (dmv_targets G dumpDir (Split response LF)) w1 (final (DMV w)).
Proof.
  intros Hq. unfold CreateDMVFiles. unfold bind at 1. rewrite Hq. cbv beta iota.
  destruct (negb (error =? 0)%Z).
  - eapply agree_outside_weaken; [| apply PrintMsg_agree].
    intros q Hq'. apply list_elem_of_singleton in Hq' as ->. now left.
  - cbv zeta. revert w1 Hq. intros w1 _. revert w1.
    apply keeps_bind; [apply agree_outside_trans | apply assert_agree |].
    intros _. apply keeps_for_each;
      [apply agree_outside_refl | apply agree_outside_trans |].
    intros i Hi. apply CreateDMVFiles_body_agree.
    apply list_elem_of_In, nth_In. now apply loop_index_in_range.
Qed.
End Catalog.

(** ** CreateDbfsFiles, first run and second run *)

Lemma sys_mkdir_made path mode w :
  fault_now w = None -> w_fs w !! path = None ->
  sys_mkdir path mode w
  = (0%Z, sys_done (EvMkdir path mode 0) (<[path := new_dir]> (w_fs w)) w).
Proof. intros Hf Hn. unfold sys_mkdir. now rewrite Hf, Hn. Qed.

Lemma sys_mkdir_exists path mode n w :
  w_fs w !! path = Some n ->
  ∃ w', sys_mkdir path mode w = ((-1)%Z, w').
Proof.
  intros Hn. unfold sys_mkdir. destruct (fault_now w); [eauto |].
  rewrite Hn. eauto.
Qed.

Section Restart.
Variables (G : Globals) (NDEBUG : bool) (strerror : Z -> string).
Variables (LINUX_PATH_DELIM CUSTOM_QUERY_FOLDER_NAME : string).
Variables (DEFAULT_PERMISSIONS TYPE_TSV : Z).
Variable Split : string -> ascii -> list string.
Variable ExecuteQuery : string -> string -> string -> string -> Z -> M (Z * string).
Variable CreateCustomQueriesOutputFiles : string -> string -> M unit.
Variables (servername hostname username password : string) (version : Z).

Local Abbreviation Dbfs :=
  (CreateDbfsFiles G NDEBUG strerror LINUX_PATH_DELIM CUSTOM_QUERY_FOLDER_NAME
                   DEFAULT_PERMISSIONS TYPE_TSV Split ExecuteQuery
                   CreateCustomQueriesOutputFiles
                   servername hostname username password version).
Local Abbreviation fpath := (CalculateDumpPath G servername).
Local Abbreviation folder :=
  (fpath +:+ LINUX_PATH_DELIM +:+ CUSTOM_QUERY_FOLDER_NAME).

(** X18. [CreateDbfsFiles] cannot be run over its own result: when anything
    is already at the dump path of the server (the directory a former run
    made, for one), it attempts no creation, changes no path but the log
    file, and calls [KillSelf]; under the default action of SIGHUP the
    process ends there. *)
Theorem CreateDbfsFiles_not_repeatable (n : inode) (w : World) :
  w_fs w !! fpath = Some n ->
  kills (w_trace (final (Dbfs w))) = S (kills (w_trace w)) ∧
  attempts (w_trace (final (Dbfs w))) = attempts (w_trace w) ∧
  agree_outside [m_logfilePath (g_UserPaths G)] w (final (Dbfs w)) ∧
  (w_sighup w = SIG_DFL -> returned (Dbfs w) = false).
Proof.
  intros Hn.
  destruct (sys_mkdir_exists fpath DEFAULT_PERMISSIONS n w Hn) as (w1 & Hm).
  assert (Hr : (-1)%Z ≠ 0%Z) by lia.
  rewrite (CreateDbfsFiles_mkdir_failed G NDEBUG strerror LINUX_PATH_DELIM
             CUSTOM_QUERY_FOLDER_NAME DEFAULT_PERMISSIONS TYPE_TSV Split
             ExecuteQuery CreateCustomQueriesOutputFiles servername hostname
             username password version _ _ _ Hm Hr).
  destruct (sys_mkdir_failed _ _ _ _ _ Hm Hr) as (_ & Hfs1 & Hs1 & Ht1).
  set (w2 := final (PrintMsg G ("mkdir failed for %s- %s" +:+ nl)
                             [fpath; strerror (w_errno w1)] w1)).
  destruct (PrintMsg_frame G ("mkdir failed for %s- %s" +:+ nl)
              [fpath; strerror (w_errno w1)] w1) as (Hs2 & _ & Ha2 & Hk2 & Hfs2).
  fold w2 in Hs2, Ha2, Hk2, Hfs2.
  set (w3 := final (PrintMsg G _ [] w2)).
  destruct (PrintMsg_frame G
              ("There was an error creating the folders to hold the server DMV files. Exiting."
               +:+ nl) [] w2) as (Hs3 & _ & Ha3 & Hk3 & Hfs3).
  fold w3 in Hs3, Ha3, Hk3, Hfs3.
  destruct (KillSelf_frame w3) as (Hfs & Ha & Hk).
  split; [| split; [| split]].
  - rewrite Hk, Hk3, Hk2, Ht1, kills_app. change (kills [_]) with 0%nat. lia.
  - rewrite Ha, Ha3, Ha2, Ht1, attempts_app. simpl. now rewrite app_nil_r.
  - intros q Hq.
    assert (q ≠ m_logfilePath (g_UserPaths G)) by (intros ->; apply Hq; now left).
    rewrite Hfs, Hfs3, Hfs2, Hfs1 by assumption. reflexivity.
  - intros Hd. rewrite KillSelf_default by congruence. reflexivity.
Qed.

(** X19. The first run on a clean dump directory: when nothing is at the
    dump path of the server nor at the path of its custom query folder, and
    the system calls succeed, [CreateDbfsFiles] makes the two directories,
    prints nothing, and then first has the custom query output files made
    for (servername, folder) and only then runs [CreateDMVFiles] on the
    server directory. *)
Theorem CreateDbfsFiles_first_run (w : World) :
  fault_free w -> w_fs w !! fpath = None -> w_fs w !! folder = None ->
  folder ≠ fpath ->
  ∃ w2, Dbfs w
        = (CreateCustomQueriesOutputFiles servername folder ;;
           CreateDMVFiles G NDEBUG strerror TYPE_TSV Split ExecuteQuery
                          fpath servername hostname username password version) w2 ∧
        w_fs w2 = <[folder := new_dir]> (<[fpath := new_dir]> (w_fs w)) ∧
        w_stderr w2 = w_stderr w ∧
        kills (w_trace w2) = kills (w_trace w) ∧
        fault_free w2.
Proof.
  intros Hff Hroot Hfolder Hne.
  pose proof (sys_mkdir_made fpath DEFAULT_PERMISSIONS w (fault_free_now w Hff) Hroot)
    as Hm1.
  set (w1 := sys_done (EvMkdir fpath DEFAULT_PERMISSIONS 0)
                      (<[fpath := new_dir]> (w_fs w)) w) in *.
  assert (Hff1 : fault_free w1)
    by (apply (fault_free_later w); [exact Hff | reflexivity | simpl; lia]).
  assert (Hfolder1 : w_fs w1 !! folder = None)
    by (simpl; rewrite lookup_insert_ne by congruence; exact Hfolder).
  pose proof (sys_mkdir_made folder DEFAULT_PERMISSIONS w1
                (fault_free_now w1 Hff1) Hfolder1) as Hm2.
  set (w2 := sys_done (EvMkdir folder DEFAULT_PERMISSIONS 0)
                      (<[folder := new_dir]> (w_fs w1)) w1) in *.
  exists w2. split; [| split; [reflexivity | split; [reflexivity | split]]].
  - unfold CreateDbfsFiles. unfold bind at 1, lift. rewrite Hm1.
    cbv beta iota. change (0 =? 0)%Z with true. cbv iota.
    unfold CreateCustomQueriesDir. rewrite bind_assoc.
    unfold bind at 1, lift. rewrite Hm2. reflexivity.
  - simpl. rewrite !kills_app. change (kills [_]) with 0%nat.
    change (kills [_]) with 0%nat. lia.
  - apply (fault_free_later w1); [exact Hff1 | reflexivity | simpl; lia].
Qed.
End Restart.

(** ** CreateFile on a directory *)

Lemma PrintMsg_clock G format args w :
  (w_clock w ≤ w_clock (final (PrintMsg G format args w)))%nat.
Proof.
  unfold PrintMsg. destruct (g_InVerbose G); [| simpl; lia].
  destruct (g_UseLogFile G); [| simpl; lia].
  unfold sys_fopen. destruct (fault_now w); [simpl; lia |].
  destruct (w_fs w !! _) as [n|]; [destruct (i_dir n) |]; simpl; lia.
Qed.

Lemma PrintMsg_keeps_directory G format args w path n :
  w_fs w !! path = Some n -> i_dir n = true ->
  w_fs (final (PrintMsg G format args w)) !! path = Some n.
Proof.
  intros Hn Hd.
  destruct (decide (path = m_logfilePath (g_UserPaths G))) as [-> | Hne].
  - unfold PrintMsg. destruct (g_InVerbose G); [| exact Hn].
    destruct (g_UseLogFile G); [| exact Hn].
    unfold sys_fopen. destruct (fault_now w); [exact Hn |].
    rewrite Hn, Hd. exact Hn.
  - destruct (PrintMsg_frame G format args w) as (_ & _ & _ & _ & H).
    now rewrite H.
Qed.

Lemma PrintMsg_creations G format args w :
  creations (w_trace (final (PrintMsg G format args w))) = creations (w_trace w).
Proof.
  unfold PrintMsg. destruct (g_InVerbose G); [| reflexivity].
  destruct (g_UseLogFile G); [| reflexivity].
  unfold sys_fopen. destruct (fault_now w); simpl.
  { rewrite creations_app. simpl. now rewrite app_nil_r. }
  destruct (w_fs w !! _) as [n|]; [destruct (i_dir n) |]; simpl;
    rewrite creations_app; simpl; now rewrite app_nil_r.
Qed.

(** X20. [setxattr] is called whether or not [fopen] succeeded. When the
    path is an existing directory, SIGHUP is caught or ignored and no other
    fault occurs, [CreateFile] reports the failed creation, calls [KillSelf]
    once, and then returns having set the provenance attribute on the
    directory, which stays a directory. *)
Theorem CreateFile_tags_a_directory (G : Globals) (strerror : Z -> string)
    (path : string) (n : inode) (w : World) :
  w_fs w !! path = Some n -> i_dir n = true ->
  w_sighup w ≠ SIG_DFL -> fault_free w ->
  ∃ w', CreateFile G strerror path w = Ret tt w' ∧
        w_fs w' !! path = Some (set_attr (g_LocallyGeneratedFiles G) EmptyString n) ∧
        has_xattr (w_fs w') path (g_LocallyGeneratedFiles G) = true ∧
        creations (w_trace w') = creations (w_trace w) ∧
        kills (w_trace w') = S (kills (w_trace w)).
Proof.
  intros Hn Hd Hs Hff.
  set (w1 := sys_fail EISDIR (EvFopen path ModeWPlus false) w).
  assert (Ho : sys_fopen path ModeWPlus w = (false, w1)).
  { unfold sys_fopen. now rewrite (fault_free_now w Hff), Hn, Hd. }
  set (w2 := final (PrintMsg G ("Error creating file %s %s" +:+ nl)
                             [path; strerror (w_errno w1)] w1)).
  destruct (PrintMsg_frame G ("Error creating file %s %s" +:+ nl)
              [path; strerror (w_errno w1)] w1) as (Hs2 & Hf2 & _ & Hk2 & _).
  fold w2 in Hs2, Hf2, Hk2.
  pose proof (PrintMsg_clock G ("Error creating file %s %s" +:+ nl)
                [path; strerror (w_errno w1)] w1) as Hc2. fold w2 in Hc2.
  assert (Hn2 : w_fs w2 !! path = Some n)
    by (apply PrintMsg_keeps_directory; [exact Hn | exact Hd]).
  assert (Hcr2 : creations (w_trace w2) = creations (w_trace w)).
  { subst w2. rewrite PrintMsg_creations. subst w1. simpl.
    rewrite creations_app. simpl. now rewrite app_nil_r. }
  destruct (KillSelf_otherwise w2) as (w3 & Hk & (Ht3 & Hs3 & Hf3 & Hc3) & Hfs3 & _);
    [simpl in Hs2; congruence |].
  assert (Hff3 : fault_free w3).
  { apply (fault_free_later w); [exact Hff | | simpl in Hc2; lia].
    rewrite Hf3, Hf2. reflexivity. }
  set (w4 := sys_done (EvSetxattr path (g_LocallyGeneratedFiles G) 0)
                      (<[path := set_attr (g_LocallyGeneratedFiles G) EmptyString n]>
                         (w_fs w3)) w3).
  assert (Hx : sys_setxattr path (g_LocallyGeneratedFiles G) "1" 0 w3 = (0%Z, w4)).
  { assert (Hn3 : w_fs w3 !! path = Some n) by (rewrite Hfs3; exact Hn2).
    unfold sys_setxattr. now rewrite (fault_free_now w3 Hff3), Hn3. }
  exists w4. split; [| split; [| split; [| split]]].
  - rewrite CreateFile_halves. unfold bind at 1.
    rewrite (CreateFile_open_failed G strerror path w w1 Ho). fold w2. rewrite Hk.
    unfold CreateFile_tag. unfold bind at 1, lift. rewrite Hx. reflexivity.
  - simpl. apply lookup_insert_eq.
  - unfold has_xattr. simpl. rewrite lookup_insert_eq.
    apply bool_decide_eq_true. exists EmptyString. simpl. apply lookup_insert_eq.
  - simpl. rewrite creations_app, Ht3, creations_app, Hcr2. simpl.
    now rewrite !app_nil_r.
  - simpl. rewrite kills_app, Ht3, kills_app, Hk2. simpl.
    rewrite kills_app. change (kills [EvKill]) with 1%nat.
    change (kills [_]) with 0%nat. change (kills [_]) with 0%nat. lia.
Qed.
(** ** The further properties at work in the sample installation *)

Section MoreInstances.
Import Sample.

Local Abbreviation quiet := (server_world no_fault SIG_DFL).
Local Abbreviation caught := (server_world no_fault SIG_CATCH).
Local Abbreviation logging := (SampleLog.world no_fault SIG_DFL).
Local Abbreviation attr := ("user.dbfs.generated").

Lemma PrintMsg_appends_to_log_witness :
  ∃ w', (PrintMsg SampleLog.G "one %s;" ["a"] ;; PrintMsg SampleLog.G "two" []) logging
        = Ret tt w' ∧
        content (w_fs w') SampleLog.logfile = "startedone a;two".
Proof.
  destruct (PrintMsg_appends_to_log SampleLog.G "one %s;" "two" ["a"] [] logging
              eq_refl eq_refl eq_refl eq_refl (λ n _, eq_refl) eq_refl)
    as (w' & Hrun & Hc & _).
  exists w'. split; [exact Hrun | exact Hc].
Defined.

Lemma PrintMsg_loses_message_witness :
  ∃ w', PrintMsg SampleLog.G "lost" [] (SampleLog.world (denied_at 0) SIG_DFL)
        = Ret tt w' ∧
        w_stderr w' = [] ∧ w_errno w' = 13%Z.
Proof.
  destruct (PrintMsg_loses_message SampleLog.G "lost" [] 13
              (SampleLog.world (denied_at 0) SIG_DFL) eq_refl eq_refl eq_refl)
    as (w' & Hrun & _ & Hs & He).
  exists w'. split; [exact Hrun |]. split; [exact Hs | exact He].
Defined.

Lemma GetUserCustomQueryPath_nonempty_witness :
  GetUserCustomQueryPath G "srv" = "/etc/dbfs/q" ∧
  GetServerDetails G "srv" (mkDetails "h" "u" "p") quiet
  = Ret (mkDetails "10.0.0.5" "sa" "secret") quiet.
Proof.
  split; [reflexivity |].
  destruct (GetUserCustomQueryPath_nonempty G "srv" (mkDetails "h" "u" "p") quiet)
    as (serverInfo & Hi & _ & Hd).
  { discriminate. }
  injection Hi as <-. exact Hd.
Defined.

Lemma CreateFile_then_IsDbfsFile_witness :
  ∃ w' w'', CreateFile G strerror "/dump/srv/a" quiet = Ret tt w' ∧
            IsDbfsFile G "/srv/a" w' = Ret true w''.
Proof.
  exact (CreateFile_then_IsDbfsFile G strerror "/srv/a" quiet
           (λ n _, eq_refl) eq_refl).
Defined.

Lemma CreateFile_truncates_and_repeats_witness :
  ∃ w1 w2, CreateFile G strerror "/dump/srv/a" quiet = Ret tt w1 ∧
           CreateFile G strerror "/dump/srv/a" w1 = Ret tt w2 ∧
           w_fs w2 = w_fs w1.
Proof.
  destruct (CreateFile_truncates_and_repeats G strerror "/dump/srv/a" quiet
              (λ n _, eq_refl) eq_refl)
    as (w1 & w2 & n1 & H1 & _ & _ & _ & _ & _ & H2 & Hfs).
  exists w1, w2. auto.
Defined.

Local Abbreviation untaggable := (server_world (denied_at 1) SIG_DFL).
Local Abbreviation opened := (snd (sys_fopen "/dump/srv/a" ModeWPlus untaggable)).
Local Abbreviation untagged := (snd (sys_setxattr "/dump/srv/a" attr "1" 0 opened)).

Lemma CreateFile_tagging_failure_witness :
  sys_fopen "/dump/srv/a" ModeWPlus untaggable = (true, opened) ∧
  sys_setxattr "/dump/srv/a" attr "1" 0 opened = ((-1)%Z, untagged) ∧
  CreateFile G strerror "/dump/srv/a" untaggable
  = Halt BySighup
      (record EvKill
         (put_stderr
            ("Error setting extended attributes for file /dump/srv/a : Permission denied"
             +:+ nl) untagged)).
Proof.
  split; [reflexivity |]. split; [reflexivity |].
  refine (proj2 (proj2 (proj2 (proj2
            (CreateFile_tagging_failure G strerror "/dump/srv/a" (-1) untaggable
               opened untagged eq_refl eq_refl _)))) eq_refl).
  lia.
Defined.

Lemma CreateFile_default_all_or_nothing_witness :
  CreateFile G strerror "/dump/srv/a" quiet = Ret tt (touch attr "/dump/srv/a" quiet) ∧
  is_placeholder (w_fs (touch attr "/dump/srv/a" quiet)) "/dump/srv/a" attr = true.
Proof.
  split; [reflexivity |].
  exact (proj1 (CreateFile_default_all_or_nothing G strerror "/dump/srv/a" quiet
                  (touch attr "/dump/srv/a" quiet) eq_refl eq_refl)).
Defined.

Lemma CreateDMVFiles_loop_within_bounds_witness :
  (2 < 3)%nat ∧ nth 2 ["ColumnName"; "a"; "b"] EmptyString ∈ ["ColumnName"; "a"; "b"].
Proof.
  apply (CreateDMVFiles_loop_within_bounds ["ColumnName"; "a"; "b"] 2).
  apply list_elem_of_In. vm_compute. right. right. left. reflexivity.
Defined.

Lemma CreateDMVFiles_query_failure_witness :
  CreateDMVFiles G false strerror 0 Split (answers 7 EmptyString)
                 "/dump/srv" "srv" "10.0.0.5" "sa" "secret" 15 quiet
  = Ret tt (put_stderr ("Failed to query DMV list" +:+ nl) quiet).
Proof.
  refine (proj1 (CreateDMVFiles_query_failure G false strerror 0 Split
                   (answers 7 EmptyString) "/dump/srv" "srv" "10.0.0.5" "sa" "secret"
                   15 7 EmptyString quiet quiet eq_refl _)).
  lia.
Defined.

Lemma CreateDMVFiles_creates_every_row_witness :
  ∃ w', CreateDMVFiles_on false catalog_ab 16 quiet = Ret tt w' ∧
        creations (w_trace w')
        = ["/dump/srv/a"; "/dump/srv/a.json"; "/dump/srv/b"; "/dump/srv/b.json"].
Proof.
  destruct (CreateDMVFiles_creates_every_row G false strerror 0 Split
              (answers 0 catalog_ab) "/dump/srv" "srv" "10.0.0.5" "sa" "secret" 16
              catalog_ab "ColumnName" "a" ["b"] quiet quiet
              eq_refl eq_refl eq_refl (λ n _, eq_refl) eq_refl)
    as (w' & Hrun & Hc & _).
  exists w'. split; [exact Hrun | exact Hc].
Defined.

Lemma CreateDMVFiles_attempts_every_row_witness :
  ∃ w', CreateDMVFiles_on false catalog_ab 15 (server_world (denied_at 0) SIG_CATCH)
        = Ret tt w' ∧
        attempts (w_trace w') = ["/dump/srv/a"; "/dump/srv/b"].
Proof.
  refine (CreateDMVFiles_attempts_every_row G false strerror 0 Split
            (answers 0 catalog_ab) "/dump/srv" "srv" "10.0.0.5" "sa" "secret" 15
            catalog_ab "ColumnName" "a" ["b"]
            (server_world (denied_at 0) SIG_CATCH)
            (server_world (denied_at 0) SIG_CATCH) eq_refl eq_refl eq_refl _).
  discriminate.
Defined.

Local Abbreviation materialised :=
  (touch_all attr ["/dump/srv/a"; "/dump/srv/b"] quiet).

Lemma CreateDMVFiles_default_all_or_nothing_witness :
  CreateDMVFiles_on false catalog_ab 15 quiet = Ret tt materialised ∧
  creations (w_trace materialised) = ["/dump/srv/a"; "/dump/srv/b"].
Proof.
  assert (Hrun : CreateDMVFiles_on false catalog_ab 15 quiet = Ret tt materialised)
    by (vm_compute; reflexivity).
  split; [exact Hrun |].
  exact (proj1 (proj2
           (CreateDMVFiles_default_all_or_nothing G false strerror 0 Split
              (answers 0 catalog_ab) "/dump/srv" "srv" "10.0.0.5" "sa" "secret" 15
              catalog_ab "ColumnName" "a" ["b"] quiet quiet materialised
              eq_refl eq_refl eq_refl eq_refl Hrun))).
Defined.

Lemma CreateDMVFiles_touches_only_its_rows_witness :
  w_fs (final (CreateDMVFiles_on false catalog_ab 16
                 (server_world (denied_at 2) SIG_CATCH))) !! "/dump"
  = Some new_dir.
Proof.
  refine (CreateDMVFiles_touches_only_its_rows G false strerror 0 Split
            (answers 0 catalog_ab) "/dump/srv" "srv" "10.0.0.5" "sa" "secret" 16
            0 catalog_ab (server_world (denied_at 2) SIG_CATCH)
            (server_world (denied_at 2) SIG_CATCH) eq_refl "/dump" _).
  vm_compute. intros H. apply list_elem_of_In in H. simpl in H.
  repeat (destruct H as [H | H]; [discriminate H |]). exact H.
Defined.

Lemma CreateDbfsFiles_not_repeatable_witness :
  w_fs quiet !! "/dump/srv" = Some new_dir ∧
  returned (CreateDbfsFiles_on 15 quiet) = false ∧
  attempts (w_trace (final (CreateDbfsFiles_on 15 quiet))) = [].
Proof.
  split; [reflexivity |].
  destruct (CreateDbfsFiles_not_repeatable G false strerror "/" "customQueries" 493 0
              Split (answers 0 catalog_ab) custom "/srv" "10.0.0.5" "sa" "secret" 15
              new_dir quiet eq_refl) as (_ & Ha & _ & Hr).
  split; [exact (Hr eq_refl) | exact Ha].
Defined.

Lemma CreateDbfsFiles_first_run_witness :
  ∃ w2, CreateDbfsFiles_on 15 (world no_fault SIG_DFL)
        = (custom "/srv" "/dump/srv/customQueries" ;;
           CreateDMVFiles G false strerror 0 Split (answers 0 catalog_ab)
                          "/dump/srv" "/srv" "10.0.0.5" "sa" "secret" 15) w2 ∧
        w_fs w2 = <[ "/dump/srv/customQueries" := new_dir ]>
                    (<[ "/dump/srv" := new_dir ]> (w_fs (world no_fault SIG_DFL))).
Proof.
  destruct (CreateDbfsFiles_first_run G false strerror "/" "customQueries" 493 0
              Split (answers 0 catalog_ab) custom "/srv" "10.0.0.5" "sa" "secret" 15
              (world no_fault SIG_DFL) (λ n _, eq_refl) eq_refl eq_refl)
    as (w2 & Hrun & Hfs & _).
  { discriminate. }
  exists w2. split; [exact Hrun | exact Hfs].
Defined.

Lemma CreateFile_tags_a_directory_witness :
  ∃ w', CreateFile G strerror "/dump/srv" caught = Ret tt w' ∧
        w_fs w' !! "/dump/srv" = Some (set_attr attr EmptyString new_dir) ∧
        kills (w_trace w') = 1%nat.
Proof.
  destruct (CreateFile_tags_a_directory G strerror "/dump/srv" new_dir caught
              eq_refl eq_refl) as (w' & Hrun & Hfs & _ & _ & Hk).
  { discriminate. }
  { intros n _. reflexivity. }
  exists w'. split; [exact Hrun |]. split; [exact Hfs | exact Hk].
Defined.
End MoreInstances.
